(** * Pattern record lifecycle of [enhanced_code_storage.py]

    A shallow embedding of [CodeQualityAnalyzer] and [EnhancedCodeStorage]
    and the properties of the quality metrics, the complexity tiers, the
    record identity, the version fields and the retrieval filter.

    Conventions of the embedding.
    - A Python [str] is a [string]; each character stands for the code point
      of the same number, so texts range over the code points below 256.
      The classes [\w] and [\s] and [str.lower] follow Python's Unicode
      tables on that range.
    - A Python [int] is a [Z]; the length of a list is a [nat].
    - A Python [float] is a binary64 value of [SpecFloat.spec_float].
    - [None] is [None]; an [Optional] argument is an [option].
    - A call either returns a value or raises a named exception
      ([py_result]); text written by [print] is returned next to the value. *)

From Stdlib Require Import ZArith List Bool Ascii String Lia.
From Stdlib Require Import Numbers.DecimalString.
From Stdlib Require Numbers.DecimalZ.
From Stdlib Require Import Floats.SpecFloat.
Import ListNotations.

Local Open Scope string_scope.
Local Open Scope Z_scope.

(** ** Python strings *)

Module PyStr.

Definition nl : string := String "010"%char EmptyString.

Definition in_range (lo hi : N) (a : ascii) : bool :=
  (lo <=? N_of_ascii a)%N && (N_of_ascii a <=? hi)%N.

(** [str.lower] on one character: A-Z and the Latin-1 capitals move up by
    32, every other code point below 256 is its own lower case. *)
Definition lower_char (a : ascii) : ascii :=
  if in_range 65 90 a || in_range 192 214 a || in_range 216 222 a
  then ascii_of_N (N_of_ascii a + 32)
  else a.

Fixpoint map_chars (f : ascii -> ascii) (s : string) : string :=
  match s with
  | EmptyString => EmptyString
  | String a s' => String (f a) (map_chars f s')
  end.

(** [s.lower()] *)
Definition lower (s : string) : string := map_chars lower_char s.

(** [s.replace(old, new)] for one-character [old] and [new]. *)
Definition replace (old new : ascii) (s : string) : string :=
  map_chars (fun a => if Ascii.eqb a old then new else a) s.

(** [str(n)] and [f"{n}"] for an [int]. *)
Definition of_int (n : Z) : string := NilEmpty.string_of_int (Z.to_int n).

(** The first character, if any. *)
Definition head (s : string) : option ascii :=
  match s with
  | EmptyString => None
  | String a _ => Some a
  end.

(** [strip_prefix p s] is [Some r] when [s = p ++ r]. *)
Fixpoint strip_prefix (p s : string) : option string :=
  match p with
  | EmptyString => Some s
  | String a p' =>
      match s with
      | EmptyString => None
      | String b s' => if Ascii.eqb a b then strip_prefix p' s' else None
      end
  end.

(** The last character of [p], or [prev] when [p] is empty. *)
Fixpoint last_char (prev : option ascii) (p : string) : option ascii :=
  match p with
  | EmptyString => prev
  | String a p' => last_char (Some a) p'
  end.

End PyStr.

(** ** The part of Python's [re] the analyzer uses *)

Module Re.

Import PyStr.

(** [\w] on a [str] pattern: alphanumeric or underscore. *)
Definition is_word (a : ascii) : bool :=
  in_range 48 57 a || in_range 65 90 a || in_range 95 95 a
  || in_range 97 122 a || in_range 170 170 a || in_range 178 179 a
  || in_range 181 181 a || in_range 185 186 a || in_range 188 190 a
  || in_range 192 214 a || in_range 216 246 a || in_range 248 255 a.

(** [\s] on a [str] pattern. *)
Definition is_space (a : ascii) : bool :=
  in_range 9 13 a || in_range 28 32 a || in_range 133 133 a
  || in_range 160 160 a.

Inductive char_class : Type :=
  | CLit (c : ascii)             (* a literal character, also escaped *)
  | CSpace                       (* \s *)
  | CNonSpace                    (* \S *)
  | CWord                        (* \w *)
  | CAlt (c1 c2 : char_class).   (* two members of a [...] set *)

Fixpoint in_class (c : char_class) (a : ascii) : bool :=
  match c with
  | CLit b => Ascii.eqb a b
  | CSpace => is_space a
  | CNonSpace => negb (is_space a)
  | CWord => is_word a
  | CAlt c1 c2 => in_class c1 a || in_class c2 a
  end.

Inductive atom : Type :=
  | One (c : char_class)         (* c   *)
  | Boundary                     (* \b  *)
  | Star (c : char_class)        (* c*  *)
  | Plus (c : char_class)        (* c+  *)
  | LazyStar (c : char_class).   (* c*? *)

(** A pattern is a sequence of atoms. *)
Definition regex : Type := list atom.

(** The literal characters of [s] in a row. *)
Fixpoint lits (s : string) : regex :=
  match s with
  | EmptyString => []
  | String a s' => One (CLit a) :: lits s'
  end.

Definition word_opt (o : option ascii) : bool :=
  match o with
  | Some a => is_word a
  | None => false
  end.

(** [\b] holds between a word character and a non-word character, the two
    ends of the text counting as non-word. *)
Definition at_boundary (prev : option ascii) (s : string) : bool :=
  xorb (word_opt prev) (word_opt (head s)).

(** Greedy repetition: take one more character first, fall back to the rest
    of the pattern [k]. *)
Fixpoint greedy (c : char_class) (k : option ascii -> string -> option string)
    (prev : option ascii) (s : string) : option string :=
  match s with
  | String a s' =>
      if in_class c a then
        match greedy c k (Some a) s' with
        | Some r => Some r
        | None => k prev s
        end
      else k prev s
  | EmptyString => k prev s
  end.

(** Lazy repetition: try the rest of the pattern [k] first. *)
Fixpoint lazy (c : char_class) (k : option ascii -> string -> option string)
    (prev : option ascii) (s : string) : option string :=
  match k prev s with
  | Some r => Some r
  | None =>
      match s with
      | String a s' => if in_class c a then lazy c k (Some a) s' else None
      | EmptyString => None
      end
  end.

(** [match_here r prev s]: the backtracking match of [r] at the start of [s],
    where [prev] is the character before [s] in the whole text.  The result
    is what is left of [s] after the match the engine finds first. *)
Fixpoint match_here (r : regex) : option ascii -> string -> option string :=
  match r with
  | [] => fun _ s => Some s
  | One c :: r' => fun _ s =>
      match s with
      | String a s' => if in_class c a then match_here r' (Some a) s' else None
      | EmptyString => None
      end
  | Boundary :: r' => fun prev s =>
      if at_boundary prev s then match_here r' prev s else None
  | Star c :: r' => greedy c (match_here r')
  | Plus c :: r' => fun _ s =>
      match s with
      | String a s' =>
          if in_class c a then greedy c (match_here r') (Some a) s' else None
      | EmptyString => None
      end
  | LazyStar c :: r' => lazy c (match_here r')
  end.

(** The scan of [re.findall]: [skip] characters of the match found last are
    still to be passed over.  Every pattern of the analyzer consumes at least
    one character, so the rule of [re] for empty matches is never reached;
    an empty match is listed and the scan moves on by one character. *)
Fixpoint findall_from (r : regex) (skip : nat) (prev : option ascii)
    (s : string) : list string :=
  match skip with
  | S n =>
      match s with
      | String a s' => findall_from r n (Some a) s'
      | EmptyString => []
      end
  | O =>
      match match_here r prev s with
      | Some rest =>
          let n := (String.length s - String.length rest)%nat in
          substring 0 n s ::
          match s with
          | String a s' => findall_from r (n - 1) (Some a) s'
          | EmptyString => []
          end
      | None =>
          match s with
          | String a s' => findall_from r 0 (Some a) s'
          | EmptyString => []
          end
      end
  end.

(** [re.findall(r, s)] for a pattern without groups: the matched texts, left
    to right, not overlapping. *)
Definition findall (r : regex) (s : string) : list string :=
  findall_from r 0 None s.

End Re.

(** ** Python floats *)

Module PyFloat.

Definition float : Type := spec_float.

Definition prec : Z := 53.
Definition emax : Z := 1024.

(** An [int] as the operand of a division: the mantissa is the integer
    itself, not yet rounded to 53 bits. *)
Definition operand (n : Z) : float :=
  match n with
  | Z0 => S754_zero false
  | Zpos p => S754_finite false p 0
  | Zneg p => S754_finite true p 0
  end.

(** [a / b] on two [int]s: the binary64 value nearest to the exact quotient,
    ties to even.  Python raises [ZeroDivisionError] for [b = 0] and
    [OverflowError] for a quotient of 2^1024 or more, where this function
    gives an infinity; the analyzer tests for zero first, and a quotient of
    two counts over a text stays below the length of the text. *)
Definition truediv (a b : Z) : float :=
  SFdiv prec emax (operand a) (operand b).

(** The literal written as the decimal fraction [n / d]. *)
Definition literal (n d : Z) : float := truediv n d.

Definition zero : float := literal 0 1.   (* 0.0 *)
Definition half : float := literal 1 2.   (* 0.5 *)
Definition one : float := literal 1 1.    (* 1.0 *)
Definition five : float := literal 5 1.   (* 5.0 *)

Definition ltb (x y : float) : bool := SFltb x y.
Definition leb (x y : float) : bool := SFleb x y.

(** [min(x, y)]: the built-in keeps its first argument unless a later one
    is smaller. *)
Definition min (x y : float) : float := if ltb y x then y else x.

(** [bool(x)]: every float but the two zeros is true. *)
Definition truthy (x : float) : bool :=
  match x with
  | S754_zero _ => false
  | _ => true
  end.

(** The integer nearest to [n / d] for [0 < d], ties to even. *)
Definition round_half_even (n d : Z) : Z :=
  let q := n / d in
  match (2 * (n mod d) ?= d) with
  | Lt => q
  | Gt => q + 1
  | Eq => if Z.even q then q else q + 1
  end.

(** The magnitude of [m * 2^e] in hundredths, rounded to an integer. *)
Definition hundredths (m : positive) (e : Z) : Z :=
  match e with
  | Zneg p => round_half_even (Zpos m * 100) (2 ^ Zpos p)
  | _ => Zpos m * 100 * 2 ^ e
  end.

(** [round(x, 2)]: the exact value of [x] is rounded to two decimals, ties
    to even, and the decimal read back as a float; the sign is kept. *)
Definition round2 (x : float) : float :=
  match x with
  | S754_finite s m e =>
      match hundredths m e with
      | Zpos k => SFdiv prec emax (S754_finite s k 0) (operand 100)
      | _ => S754_zero s
      end
  | _ => x
  end.

(** Zero, a positive finite value or the positive infinity. *)
Definition nonneg (x : float) : bool :=
  match x with
  | S754_zero _ => true
  | S754_finite s _ _ => negb s
  | S754_infinity s => negb s
  | S754_nan => false
  end.

End PyFloat.

(** ** CodeQualityAnalyzer *)

Module CodeQualityAnalyzer.

Import PyStr Re PyFloat.

(** [r'\bif\b'] and the like. *)
Definition whole_word (kw : string) : regex :=
  Boundary :: lits kw ++ [Boundary].

Definition keywords : list string :=
  ["if"; "elif"; "else"; "for"; "while"; "with"; "try"; "except"].

Definition control_statements : list regex := map whole_word keywords.

(** The [for statement in control_statements] loop. *)
Fixpoint add_matches (l : list regex) (code : string) (complexity : Z) : Z :=
  match l with
  | [] => complexity
  | statement :: l' =>
      add_matches l' code
        (complexity + Z.of_nat (List.length (findall statement code)))
  end.

Definition calculate_cyclomatic_complexity (code language : string) : Z :=
  if String.eqb (lower language) "python" then
    add_matches control_statements code 1
  else 1.

Definition dquote : ascii := "034"%char.
Definition triple (q : ascii) : string :=
  String q (String q (String q EmptyString)).

(** The docstring pattern: three quote characters [q], then [[\s\S]*?],
    then three [q] again.  The source has it once for the double quote and
    once for the single quote. *)
Definition docstring (q : ascii) : regex :=
  (lits (triple q) ++ [LazyStar (CAlt CSpace CNonSpace)]
   ++ lits (triple q))%list.

(** [r'\bdef\s+\w+\s*\('] *)
Definition func_def : regex :=
  Boundary
  :: lits "def" ++ [Plus CSpace; Plus CWord; Star CSpace; One (CLit "(")].

(** [r'\bclass\s+\w+\s*[:\(]'] *)
Definition class_def : regex :=
  Boundary
  :: lits "class"
     ++ [Plus CSpace; Plus CWord; Star CSpace;
         One (CAlt (CLit ":") (CLit "("))].

Definition docstring_count (code : string) : nat :=
  (List.length (findall (docstring dquote) code)
   + List.length (findall (docstring "'") code))%nat.

Definition func_count (code : string) : nat :=
  List.length (findall func_def code).

Definition class_count (code : string) : nat :=
  List.length (findall class_def code).

Definition total_definitions (code : string) : nat :=
  (func_count code + class_count code)%nat.

Definition calculate_doc_coverage (code language : string) : float :=
  if String.eqb (lower language) "python" then
    if Nat.eqb (total_definitions code) 0 then one
    else
      PyFloat.min one
        (truediv (Z.of_nat (docstring_count code))
                 (Z.of_nat (total_definitions code)))
  else half.

End CodeQualityAnalyzer.

(** ** Results and output of a call *)

Inductive py_result (A : Type) : Type :=
  | Returns (a : A)
  | Raises (exc : string).

Arguments Returns {A} a.
Arguments Raises {A} exc.

(** A piece of formatted text.  The [repr] of a float and of a list is not
    spelled out: an f-string field holding one is kept as the value. *)
Inductive piece : Type :=
  | Text (s : string)
  | FloatField (x : PyFloat.float)
  | ListField (l : list string).

Definition fstring : Type := list piece.

(** [bool(s)] of a formatted text: false when it is empty.  The text of a
    float or of a list has at least one character. *)
Fixpoint fstring_truthy (f : fstring) : bool :=
  match f with
  | [] => false
  | Text s :: f' => negb (String.eqb s "") || fstring_truthy f'
  | _ :: _ => true
  end.

(** [sep.join(l)] on formatted texts. *)
Fixpoint fjoin (sep : string) (l : list fstring) : fstring :=
  match l with
  | [] => []
  | [x] => x
  | x :: l' => (x ++ Text sep :: fjoin sep l')%list
  end.

Record outcome (A : Type) : Type := {
  printed : list fstring;       (* the lines written by [print] *)
  result : py_result A
}.

Arguments printed {A} o.
Arguments result {A} o.

(** ** EnhancedCodeStorage *)

Module EnhancedCodeStorage.

Import PyStr PyFloat CodeQualityAnalyzer.

Record quality_metrics : Type := {
  cyclomatic_complexity : Z;
  documentation_coverage : float
}.

Record version_info : Type := {
  version : Z;
  previous_version_id : option string;
  change_log : option string;
  updated_at : string
}.

(** The dictionary [information].  The key [user_rating] is present only
    when a rating was given: [None] stands for the missing key. *)
Record information : Type := {
  type : string;
  name : string;
  language : string;
  code : string;
  explanation : string;
  tags : list string;
  complexity_level : string;
  dependencies : list string;
  metrics : quality_metrics;          (* key "quality_metrics" *)
  versioning : version_info;          (* key "version_info" *)
  user_rating : option float;
  id : string
}.

(** [l or []] *)
Definition or_empty (l : option (list string)) : list string :=
  match l with
  | Some (x :: l') => x :: l'
  | _ => []
  end.

(** The tier of a score, lines 165-171. *)
Definition determine_complexity_level (complexity_level : option string)
    (cyclomatic_complexity : Z) : string :=
  match complexity_level with
  | None =>
      if cyclomatic_complexity <=? 5 then "simple"
      else if cyclomatic_complexity <=? 10 then "intermediate"
      else "advanced"
  | Some level => level
  end.

(** [f"{name.lower().replace(' ', '_')}_{version}"] *)
Definition assign_id (name : string) (version : Z) : string :=
  replace " " "_" (lower name) ++ "_" ++ of_int version.

(** [store_code_pattern]; [now] is the text of
    [datetime.now().isoformat()] at the call. *)
Definition store_code_pattern (now : string)
    (name code explanation language : string)
    (tags : option (list string))
    (complexity_level : option string)
    (dependencies : option (list string))
    (user_rating : option float)
    (version : Z)
    (previous_version_id change_log : option string)
    : outcome information :=
  let cyclomatic_complexity := calculate_cyclomatic_complexity code language in
  let doc_coverage := calculate_doc_coverage code language in
  let complexity_level :=
    determine_complexity_level complexity_level cyclomatic_complexity in
  let information :=
    {| type := "code_pattern";
       name := name;
       language := language;
       code := code;
       explanation := explanation;
       tags := or_empty tags;
       complexity_level := complexity_level;
       dependencies := or_empty dependencies;
       metrics :=
         {| cyclomatic_complexity := cyclomatic_complexity;
            documentation_coverage := round2 doc_coverage |};
       versioning :=
         {| version := version;
            previous_version_id := previous_version_id;
            change_log := change_log;
            updated_at := now |};
       user_rating :=
         match user_rating with
         | Some rating => Some rating
         | None => None
         end;
       id := assign_id name version |} in
  {| printed :=
       [[Text ("Would store pattern '" ++ name ++ "' (version "
               ++ of_int version ++ ") in Qdrant")]];
     result := Returns information |}.

(** The four clauses of [find_similar_code]. *)
Definition language_clause (language : string) : fstring :=
  [Text ("language='" ++ language ++ "'")].

Definition complexity_clause (complexity_level : string) : fstring :=
  [Text ("complexity_level='" ++ complexity_level ++ "'")].

Definition rating_clause (min_rating : float) : fstring :=
  [Text "user_rating>="; FloatField min_rating].

Definition tags_clause (required_tags : list string) : fstring :=
  [Text "tags include "; ListField required_tags].

(** [if x: filters.append(clause)] for an optional [x]: nothing is appended
    for [None] nor for a value that is false as a condition. *)
Definition append_if {A : Type} (truth : A -> bool) (clause : A -> fstring)
    (x : option A) (filters : list fstring) : list fstring :=
  match x with
  | Some v => if truth v then (filters ++ [clause v])%list else filters
  | None => filters
  end.

Definition str_truthy (s : string) : bool := negb (String.eqb s "").

Definition list_truthy (l : list string) : bool :=
  match l with
  | [] => false
  | _ :: _ => true
  end.

(** Lines 236-244. *)
Definition build_filters (language complexity_level : option string)
    (min_rating : option float) (required_tags : option (list string))
    : list fstring :=
  let filters := [] in
  let filters := append_if str_truthy language_clause language filters in
  let filters :=
    append_if str_truthy complexity_clause complexity_level filters in
  let filters := append_if PyFloat.truthy rating_clause min_rating filters in
  let filters := append_if list_truthy tags_clause required_tags filters in
  filters.

(** [" AND ".join(filters)] *)
Definition filter_str (language complexity_level : option string)
    (min_rating : option float) (required_tags : option (list string))
    : fstring :=
  fjoin " AND "
    (build_filters language complexity_level min_rating required_tags).

Definition find_similar_code (query : string)
    (language complexity_level : option string)
    (min_rating : option float) (required_tags : option (list string))
    : outcome (list information) :=
  let filter_str :=
    filter_str language complexity_level min_rating required_tags in
  {| printed :=
       if fstring_truthy filter_str then
         [(Text ("Would search Qdrant for: '" ++ query ++ "' WITH FILTERS: ")
           :: filter_str)%list]
       else
         [[Text ("Would search Qdrant for: '" ++ query ++ "'")]];
     result := Returns [] |}.

End EnhancedCodeStorage.

(** ** Whole-word occurrences, as the specification counts them *)

Module WholeWord.

Import PyStr Re.

Fixpoint all_word (s : string) : bool :=
  match s with
  | EmptyString => true
  | String a s' => is_word a && all_word s'
  end.

(** [kw] stands as a whole word at the start of [s]: [s] begins with [kw],
    the character before is not a word character and neither is the
    character after. *)
Definition whole_word_at (kw : string) (prev : option ascii) (s : string)
    : bool :=
  negb (word_opt prev)
  && match strip_prefix kw s with
     | Some rest => negb (word_opt (head rest))
     | None => false
     end.

(** The number of positions of [s] at which [kw] stands as a whole word. *)
Fixpoint count_whole_word (kw : string) (prev : option ascii) (s : string)
    : nat :=
  (if whole_word_at kw prev s then 1 else 0)
  + match s with
    | EmptyString => 0
    | String a s' => count_whole_word kw (Some a) s'
    end.

(** The first [n] characters of [s] exist and are word characters. *)
Fixpoint word_run (n : nat) (s : string) : bool :=
  match n with
  | O => true
  | S n' =>
      match s with
      | EmptyString => false
      | String a s' => is_word a && word_run n' s'
      end
  end.

End WholeWord.

(** ** Docstring spans and definition sites, read off the text directly *)

Module Sites.

Import PyStr Re CodeQualityAnalyzer.

(** What follows the first three [q] in a row in [s], if there are any. *)
Fixpoint after_triple (q : ascii) (s : string) : option string :=
  match strip_prefix (triple q) s with
  | Some rest => Some rest
  | None =>
      match s with
      | String _ s' => after_triple q s'
      | EmptyString => None
      end
  end.

(** A docstring span at the start of [s]: three [q], then the shortest text
    that is followed by three [q] again.  The result is what follows the
    span. *)
Definition docstring_at (q : ascii) (s : string) : option string :=
  match strip_prefix (triple q) s with
  | Some body => after_triple q body
  | None => None
  end.

Fixpoint drop_while (p : ascii -> bool) (s : string) : string :=
  match s with
  | String a s' => if p a then drop_while p s' else s
  | EmptyString => EmptyString
  end.

(** The character before [drop_while p s]. *)
Fixpoint prev_after (p : ascii -> bool) (prev : option ascii) (s : string)
    : option ascii :=
  match s with
  | String a s' => if p a then prev_after p (Some a) s' else prev
  | EmptyString => prev
  end.

(** [s] begins with a character that satisfies [p]. *)
Definition starts_with (p : ascii -> bool) (s : string) : bool :=
  match s with
  | String a _ => p a
  | EmptyString => false
  end.

(** A declaration at the start of [s]: the keyword [kw] as a whole word,
    white space, a name of word characters, white space or none, and one
    closing character.  The result is what follows the declaration. *)
Definition declaration_at (kw : string) (closer : ascii -> bool)
    (prev : option ascii) (s : string) : option string :=
  if word_opt prev then None
  else
    match strip_prefix kw s with
    | Some after_kw =>
        let name := drop_while is_space after_kw in
        let after_name := drop_while is_space (drop_while is_word name) in
        if starts_with is_space after_kw && starts_with is_word name then
          match after_name with
          | String c rest => if closer c then Some rest else None
          | EmptyString => None
          end
        else None
    | None => None
    end.

(** The pattern of a declaration: [\b], the keyword, [\s+\w+\s*] and the
    closing character. *)
Definition declaration (kw : string) (closer : char_class) : regex :=
  Boundary
  :: (lits kw ++ [Plus CSpace; Plus CWord; Star CSpace; One closer])%list.

(** The sites found from left to right, each one looked for from the end of
    the one before; [site prev s] gives what follows a site at the start of
    [s], and [skip] characters of the site found last are still to be
    passed over. *)
Fixpoint count_from (site : option ascii -> string -> option string)
    (skip : nat) (prev : option ascii) (s : string) : nat :=
  match skip with
  | S n =>
      match s with
      | String a s' => count_from site n (Some a) s'
      | EmptyString => O
      end
  | O =>
      match site prev s with
      | Some rest =>
          S match s with
            | String a s' =>
                count_from site
                  (String.length s - String.length rest - 1) (Some a) s'
            | EmptyString => O
            end
      | None =>
          match s with
          | String a s' => count_from site 0 (Some a) s'
          | EmptyString => O
          end
      end
  end.

Definition count_sites (site : option ascii -> string -> option string)
    (s : string) : nat :=
  count_from site 0 None s.

Definition is_paren (c : ascii) : bool := Ascii.eqb c "(".

Definition is_colon_or_paren (c : ascii) : bool :=
  Ascii.eqb c ":" || Ascii.eqb c "(".

End Sites.

(** ** The claims of the specification, as it words them *)

Module Spec.

Import PyStr Re PyFloat CodeQualityAnalyzer EnhancedCodeStorage WholeWord.

(** The occurrences of all the keywords of [kws] in [code]. *)
Definition keyword_occurrences (kws : list string) (code : string) : nat :=
  list_sum (map (fun kw => count_whole_word kw None code) kws).

(** A rating within [0.0, 5.0]. *)
Definition rating_in_range (rating : float) : bool :=
  leb zero rating && leb rating five.

(** One clause for a constraint that is supplied, none for one that is
    absent. *)
Definition clause_if_supplied {A : Type} (clause : A -> fstring)
    (x : option A) : list fstring :=
  match x with
  | Some v => [clause v]
  | None => []
  end.

(** One clause per supplied constraint, in the order of the source. *)
Definition clauses_per_supplied (language complexity_level : option string)
    (min_rating : option float) (required_tags : option (list string))
    : list fstring :=
  (clause_if_supplied language_clause language
   ++ clause_if_supplied complexity_clause complexity_level
   ++ clause_if_supplied rating_clause min_rating
   ++ clause_if_supplied tags_clause required_tags)%list.

(** A supplied empty text, or empty list, read as an absent constraint. *)
Definition nonempty_str (x : option string) : option string :=
  match x with
  | Some EmptyString => None
  | _ => x
  end.

Definition nonempty_list (x : option (list string))
    : option (list string) :=
  match x with
  | Some [] => None
  | _ => x
  end.

(** The list an optional list argument stands for. *)
Definition list_or_empty (x : option (list string)) : list string :=
  match x with
  | Some l => l
  | None => []
  end.

(** No space is left in [s]. *)
Fixpoint no_space (s : string) : bool :=
  match s with
  | EmptyString => true
  | String a s' => negb (Ascii.eqb a " ") && no_space s'
  end.

End Spec.

(** ** Sample inputs *)

Module Samples.

Import PyStr PyFloat CodeQualityAnalyzer.

(** ["def f(x):\n if x: return 1\n else: return 0"] *)
Definition scenario_code : string :=
  "def f(x):" ++ nl ++ " if x: return 1" ++ nl ++ " else: return 0".

(** Three definitions and one docstring. *)
Definition thirds_code : string :=
  "def f(x):" ++ nl ++ "    '''doc'''" ++ nl
  ++ "def g(y):" ++ nl ++ "class A:" ++ nl.

Definition clock : string := "2025-01-01T00:00:00".

End Samples.

(** ** sample_code_storage.py *)

Module SampleCodeStorage.

Import PyStr.

(** The dictionary [information] of the sample utility. *)
Record information : Type := {
  type : string;
  name : string;
  language : string;
  code : string;
  explanation : string;
  tags : list string
}.

Definition store_code_pattern (name code explanation language : string)
    (tags : option (list string)) : outcome information :=
  let information :=
    {| type := "code_pattern";
       name := name;
       language := language;
       code := code;
       explanation := explanation;
       tags := EnhancedCodeStorage.or_empty tags |} in
  {| printed := [[Text ("Would store pattern '" ++ name ++ "' in Qdrant")]];
     result := Returns information |}.

Definition find_similar_code (query : string)
    : outcome (list information) :=
  {| printed := [[Text ("Would search Qdrant for: " ++ query)]];
     result := Returns [] |}.

End SampleCodeStorage.

(** ** Notions used to state further properties *)

Module Facts.

Import PyStr Re PyFloat CodeQualityAnalyzer EnhancedCodeStorage.

(** The part of an id before the version: the name in lower case with
    underscores for spaces. *)
Definition slug (name : string) : string := replace " " "_" (lower name).

(** The character [c] does not occur in [s]. *)
Fixpoint no_char (c : ascii) (s : string) : bool :=
  match s with
  | EmptyString => true
  | String a s' => negb (Ascii.eqb a c) && no_char c s'
  end.

(** The keys a record shares with the record of the sample utility. *)
Definition basic_keys (r : information) : SampleCodeStorage.information :=
  {| SampleCodeStorage.type := type r;
     SampleCodeStorage.name := name r;
     SampleCodeStorage.language := language r;
     SampleCodeStorage.code := code r;
     SampleCodeStorage.explanation := explanation r;
     SampleCodeStorage.tags := tags r |}.

(** The tier of a python text by the number of keyword occurrences. *)
Definition tier_of_occurrences (n : nat) : string :=
  if (n <=? 4)%nat then "simple"
  else if (n <=? 9)%nat then "intermediate"
  else "advanced".

(** A clause of a filter starts with a text that is not empty. *)
Definition clause_like (f : fstring) : Prop :=
  exists s rest, f = Text s :: rest /\ s <> "".

(** The line printed for a search without a clause, and with clauses. *)
Definition plain_search_line (query : string) : fstring :=
  [Text ("Would search Qdrant for: '" ++ query ++ "'")].

Definition filtered_search_line (query : string) (clauses : list fstring)
    : fstring :=
  (Text ("Would search Qdrant for: '" ++ query ++ "' WITH FILTERS: ")
   :: fjoin " AND " clauses)%list.

End Facts.

(** ** Further sample inputs *)

Module MoreSamples.

Import PyStr CodeQualityAnalyzer.

(** One definition, no docstring. *)
Definition bare_code : string :=
  "def area(w, h):" ++ nl ++ "    return w * h" ++ nl.

(** One definition, two docstrings. *)
Definition documented_code : string :=
  "'''Shapes.'''" ++ nl ++ "def area(w, h):" ++ nl
  ++ "    '''Area of a box.'''" ++ nl ++ "    return w * h" ++ nl.

End MoreSamples.

(** ** Binary64 values written out *)

Module Binary64.

Import PyFloat.

(** Python floats by sign, mantissa and exponent: the value is the
    mantissa times two to the exponent. *)
Definition b_zero : float := S754_zero false.                        (* 0.0 *)
Definition b_one : float := S754_finite false 4503599627370496 (-52).
                                                     (* 1.0 = 0x1.0p+0 *)
Definition b_half : float := S754_finite false 4503599627370496 (-53).
                                                     (* 0.5 = 0x1.0p-1 *)
Definition b_third : float := S754_finite false 6004799503160661 (-54).
                                         (* 1/3 = 0x1.5555555555555p-2 *)
Definition b_tenth : float := S754_finite false 7205759403792794 (-56).
                                  (* 1/10 = 0.1 = 0x1.999999999999ap-4 *)
Definition b_two_thirds : float :=
  S754_finite false 6004799503160661 (-53).  (* 2/3 = 0x1.5555555555555p-1 *)
Definition b_three_eighths : float :=
  S754_finite false 6755399441055744 (-54).          (* 0.375 = 0x1.8p-2 *)
Definition b_eighth : float :=
  S754_finite false 4503599627370496 (-55).          (* 0.125 = 0x1.0p-3 *)
Definition b_0_67 : float :=
  S754_finite false 6034823500676465 (-53).  (* 0.67 = 0x1.570a3d70a3d71p-1 *)
Definition b_0_38 : float :=
  S754_finite false 6845471433603154 (-54).  (* 0.38 = 0x1.851eb851eb852p-2 *)
Definition b_0_12 : float :=
  S754_finite false 8646911284551352 (-56).  (* 0.12 = 0x1.eb851eb851eb8p-4 *)
Definition b_0_33 : float :=
  S754_finite false 5944751508129055 (-54).  (* 0.33 = 0x1.51eb851eb851fp-2 *)

(** [k] is the integer nearest to a hundred times the value of [x], and the
    even one when two integers are as near. *)
Definition nearest_hundredth (x : float) (k : Z) : Prop :=
  match x with
  | S754_zero _ => k = 0
  | S754_finite false m e =>
      if e <? 0 then
        2 * Z.abs (Z.pos m * 100 - k * 2 ^ (- e)) <= 2 ^ (- e)
        /\ (2 * Z.abs (Z.pos m * 100 - k * 2 ^ (- e)) = 2 ^ (- e) ->
            Z.even k = true)
      else k = Z.pos m * 100 * 2 ^ e
  | _ => False
  end.

End Binary64.

(** ** Texts with a given number of docstrings and definitions *)

Module Texts.

Import PyStr.

Fixpoint repeat_text (n : nat) (s : string) : string :=
  match n with
  | O => ""
  | S n' => s ++ repeat_text n' s
  end.

(** [docstrings] lines holding a docstring, then [definitions] functions
    of two lines. *)
Definition text_with (docstrings definitions : nat) : string :=
  repeat_text docstrings ("'''doc'''" ++ nl)
  ++ repeat_text definitions ("def f():" ++ nl ++ "    pass" ++ nl).

(** One docstring in double quotes, two classes and one function. *)
Definition mixed_text : string :=
  CodeQualityAnalyzer.triple CodeQualityAnalyzer.dquote ++ "Shapes."
  ++ CodeQualityAnalyzer.triple CodeQualityAnalyzer.dquote ++ nl
  ++ "class Box(Shape):" ++ nl ++ "    pass" ++ nl
  ++ "class  Dot :" ++ nl ++ "    pass" ++ nl
  ++ "def area (box):" ++ nl ++ "    return 0" ++ nl.

End Texts.

(** ** Reading an id *)

Module IdText.

Import PyStr.

(** A code point below 128. *)
Definition is_ascii (a : ascii) : bool := (N_of_ascii a <? 128)%N.

Fixpoint all_ascii (s : string) : bool :=
  match s with
  | EmptyString => true
  | String a s' => is_ascii a && all_ascii s'
  end.

(** No letter from A to Z occurs in [s]. *)
Fixpoint no_capital (s : string) : bool :=
  match s with
  | EmptyString => true
  | String a s' => negb (in_range 65 90 a) && no_capital s'
  end.

(** What becomes of one ASCII character of a name in the id: a space
    becomes an underscore, a letter from A to Z the same letter from a to
    z, and any other character stays. *)
Definition ascii_slug_char (a : ascii) : ascii :=
  if Ascii.eqb a " " then "_"%char
  else if in_range 65 90 a then ascii_of_N (N_of_ascii a + 32)
  else a.

(** The integer a decimal text stands for. *)
Definition version_of_text (s : string) : option Z :=
  option_map Z.of_int (NilEmpty.int_of_string s).

End IdText.

(** ** The engine on literal patterns *)

Section Literals.

Import PyStr Re WholeWord.

Lemma match_here_lits (p : string) (r : regex) :
  forall prev s,
    match_here (lits p ++ r)%list prev s =
    match strip_prefix p s with
    | Some rest => match_here r (last_char prev p) rest
    | None => None
    end.
Proof.
  induction p as [|a p IH]; intros prev s; simpl.
  - reflexivity.
  - destruct s as [|b s]; [reflexivity|].
    rewrite (Ascii.eqb_sym a b).
    destruct (Ascii.eqb b a) eqn:E; [|reflexivity].
    apply Ascii.eqb_eq in E; subst b. apply IH.
Qed.

Lemma strip_prefix_length (p : string) :
  forall s rest,
    strip_prefix p s = Some rest ->
    String.length s = (String.length p + String.length rest)%nat.
Proof.
  induction p as [|a p IH]; intros s rest H; simpl in *.
  - now inversion H.
  - destruct s as [|b s]; [discriminate|].
    destruct (Ascii.eqb a b); [|discriminate].
    simpl. f_equal. now apply IH.
Qed.

Lemma strip_prefix_word_run (p : string) :
  forall s rest,
    all_word p = true ->
    strip_prefix p s = Some rest ->
    word_run (String.length p) s = true.
Proof.
  induction p as [|a p IH]; intros s rest W H; simpl in *.
  - reflexivity.
  - destruct s as [|b s]; [discriminate|].
    destruct (Ascii.eqb a b) eqn:E; [|discriminate].
    apply Ascii.eqb_eq in E; subst b.
    apply andb_true_iff in W as [Wa Wp].
    rewrite Wa. simpl. now apply (IH s rest).
Qed.

Lemma last_char_word (p : string) :
  forall prev,
    all_word p = true -> word_opt prev = true ->
    word_opt (last_char prev p) = true.
Proof.
  induction p as [|a p IH]; intros prev W H; simpl in *.
  - exact H.
  - apply andb_true_iff in W as [Wa Wp]. now apply IH.
Qed.

End Literals.

(** ** Scanning for a keyword *)

Section KeywordScan.

Import PyStr Re WholeWord CodeQualityAnalyzer.

Variable k0 : ascii.
Variable ks : string.

Let kw : string := String k0 ks.

Hypothesis kw_word : all_word kw = true.

(** At one position the pattern [\bkw\b] matches exactly when [kw] stands
    there as a whole word, and the match is [kw] itself. *)
Lemma match_here_whole_word (prev : option ascii) (s : string) :
  match_here (whole_word kw) prev s =
  if whole_word_at kw prev s then strip_prefix kw s else None.
Proof.
  unfold whole_word, whole_word_at.
  change (match_here (Boundary :: (lits kw ++ [Boundary])%list) prev s)
    with (if at_boundary prev s
          then match_here (lits kw ++ [Boundary])%list prev s else None).
  rewrite match_here_lits.
  destruct (strip_prefix kw s) as [rest|] eqn:P.
  - assert (Hs : head s = Some k0).
    { unfold kw in P. simpl in P. destruct s as [|b s]; [discriminate|].
      destruct (Ascii.eqb k0 b) eqn:E; [|discriminate].
      apply Ascii.eqb_eq in E. now subst b. }
    assert (Hk : is_word k0 = true).
    { unfold kw in kw_word. simpl in kw_word.
      now apply andb_true_iff in kw_word as [H _]. }
    assert (Hl : word_opt (last_char prev kw) = true).
    { unfold kw. simpl. apply last_char_word; [|exact Hk].
      unfold kw in kw_word. simpl in kw_word.
      now apply andb_true_iff in kw_word as [_ H]. }
    unfold at_boundary. rewrite Hs. simpl word_opt at 2. rewrite Hk.
    change (match_here [Boundary] (last_char prev kw) rest)
      with (if at_boundary (last_char prev kw) rest
            then Some rest else None).
    unfold at_boundary. rewrite Hl.
    destruct (word_opt prev); simpl; [reflexivity|].
    now destruct (word_opt (head rest)).
  - rewrite andb_false_r. now destruct (at_boundary prev s).
Qed.

Lemma findall_from_here (r : regex) (prev : option ascii) (s : string) :
  findall_from r 0 prev s =
  match match_here r prev s with
  | Some rest =>
      let n := (String.length s - String.length rest)%nat in
      substring 0 n s ::
      match s with
      | String a s' => findall_from r (n - 1) (Some a) s'
      | EmptyString => []
      end
  | None =>
      match s with
      | String a s' => findall_from r 0 (Some a) s'
      | EmptyString => []
      end
  end.
Proof. destruct s; reflexivity. Qed.

Lemma findall_from_skip (r : regex) (n : nat) (prev : option ascii)
    (a : ascii) (s : string) :
  findall_from r (S n) prev (String a s) = findall_from r n (Some a) s.
Proof. reflexivity. Qed.

(** The scan of [findall] lists one match per whole-word occurrence.  While
    [n] characters of a match are passed over, the characters are word
    characters, so no occurrence starts among them. *)
Lemma findall_from_count (s : string) :
  forall n prev,
    word_run n s = true ->
    (n <> O -> word_opt prev = true) ->
    List.length (findall_from (whole_word kw) n prev s)
    = count_whole_word kw prev s.
Proof.
  induction s as [|a s IH]; intros n prev R Hp.
  - destruct n as [|n]; [|discriminate].
    assert (E : whole_word_at kw prev "" = false).
    { unfold whole_word_at, kw. simpl. apply andb_false_r. }
    rewrite findall_from_here, match_here_whole_word.
    cbn [count_whole_word]. rewrite E. reflexivity.
  - destruct n as [|n].
    + rewrite findall_from_here, match_here_whole_word.
      cbn [count_whole_word].
      destruct (whole_word_at kw prev (String a s)) eqn:W.
      * unfold whole_word_at in W.
        apply andb_true_iff in W as [_ W].
        destruct (strip_prefix kw (String a s)) as [rest|] eqn:P;
          [|discriminate].
        pose proof (strip_prefix_length _ _ _ P) as L.
        pose proof (strip_prefix_word_run _ _ _ kw_word P) as Rk.
        cbv zeta. rewrite L.
        replace (String.length kw + String.length rest
                 - String.length rest)%nat
          with (String.length kw) by lia.
        unfold kw in Rk |- *. cbn [String.length word_run] in Rk |- *.
        apply andb_true_iff in Rk as [Wa Rs].
        rewrite Nat.sub_succ, Nat.sub_0_r.
        cbn [List.length]. cbn [Nat.add]. f_equal.
        apply IH; [exact Rs|]. intros _. exact Wa.
      * cbn [Nat.add]. apply IH; [reflexivity|]. intros H. now elim H.
    + simpl in R. apply andb_true_iff in R as [Wa Rs].
      rewrite findall_from_skip. cbn [count_whole_word].
      unfold whole_word_at at 1.
      rewrite (Hp (Nat.neq_succ_0 n)). cbn [negb andb Nat.add].
      apply IH; [exact Rs|]. intros _. exact Wa.
Qed.

Lemma findall_count (s : string) :
  List.length (findall (whole_word kw) s) = count_whole_word kw None s.
Proof.
  unfold findall. apply findall_from_count; [reflexivity|].
  intros H. now elim H.
Qed.

End KeywordScan.

(** ** The patterns of the coverage at one position *)

Section SiteMatches.

Import PyStr Re WholeWord CodeQualityAnalyzer Sites.

Lemma match_here_lits_only (p : string) (prev : option ascii) (s : string) :
  match_here (lits p) prev s = strip_prefix p s.
Proof.
  rewrite <- (app_nil_r (lits p)), match_here_lits.
  now destruct (strip_prefix p s).
Qed.

Lemma lazy_here (c : char_class)
    (k : option ascii -> string -> option string) (prev : option ascii)
    (s : string) :
  lazy c k prev s =
  match k prev s with
  | Some r => Some r
  | None =>
      match s with
      | String a s' => if in_class c a then lazy c k (Some a) s' else None
      | EmptyString => None
      end
  end.
Proof. destruct s; reflexivity. Qed.

(** [[\s\S]*?] before the closing quotes stops at the first three quotes
    in a row. *)
Lemma lazy_any_after_triple (q : ascii) (s : string) :
  forall prev,
    lazy (CAlt CSpace CNonSpace) (match_here (lits (triple q))) prev s
    = after_triple q s.
Proof.
  induction s as [|a s IH]; intros prev; rewrite lazy_here;
    rewrite match_here_lits_only.
  - reflexivity.
  - cbn [after_triple].
    destruct (strip_prefix (triple q) (String a s)); [reflexivity|].
    cbn [in_class]. rewrite orb_negb_r. apply IH.
Qed.

Lemma docstring_match (q : ascii) (prev : option ascii) (s : string) :
  match_here (docstring q) prev s = docstring_at q s.
Proof.
  unfold docstring, docstring_at. rewrite match_here_lits.
  destruct (strip_prefix (triple q) s) as [body|]; [|reflexivity].
  apply lazy_any_after_triple.
Qed.

(** A greedy repetition gives nothing back when what follows it cannot
    start with a character of its class. *)
Lemma greedy_no_backtrack (c : char_class)
    (k : option ascii -> string -> option string) :
  (forall prev a s, in_class c a = true -> k prev (String a s) = None) ->
  forall s prev,
    greedy c k prev s
    = k (prev_after (in_class c) prev s) (drop_while (in_class c) s).
Proof.
  intros Hk. induction s as [|a s IH]; intros prev; simpl.
  - reflexivity.
  - destruct (in_class c a) eqn:E; [|reflexivity].
    rewrite IH.
    destruct (k (prev_after (in_class c) (Some a) s)
                (drop_while (in_class c) s)) eqn:K; [reflexivity|].
    now apply Hk.
Qed.

Lemma space_not_word (a : ascii) : is_space a = true -> is_word a = false.
Proof.
  destruct a as [[] [] [] [] [] [] [] []]; vm_compute; congruence.
Qed.

Lemma word_not_space (a : ascii) : is_word a = true -> is_space a = false.
Proof.
  intros H. destruct (is_space a) eqn:E; [|reflexivity].
  apply space_not_word in E. congruence.
Qed.

Variable k0 : ascii.
Variable ks : string.
Variable closer : char_class.

Let kw : string := String k0 ks.

Hypothesis kw_word : all_word kw = true.
Hypothesis closer_not_word :
  forall a, in_class closer a = true -> is_word a = false.
Hypothesis closer_not_space :
  forall a, in_class closer a = true -> is_space a = false.

Lemma closer_here (prev : option ascii) (s : string) :
  match_here [One closer] prev s =
  match s with
  | String c rest => if in_class closer c then Some rest else None
  | EmptyString => None
  end.
Proof. destruct s; reflexivity. Qed.

Lemma spaces_then_closer (prev : option ascii) (s : string) :
  match_here [Star CSpace; One closer] prev s =
  match drop_while is_space s with
  | String c rest => if in_class closer c then Some rest else None
  | EmptyString => None
  end.
Proof.
  change (match_here [Star CSpace; One closer])
    with (greedy CSpace (match_here [One closer])).
  rewrite greedy_no_backtrack; [apply closer_here|].
  intros p a t H. rewrite closer_here.
  destruct (in_class closer a) eqn:E; [|reflexivity].
  apply closer_not_space in E. simpl in H. congruence.
Qed.

Lemma name_then_closer (prev : option ascii) (s : string) :
  match_here [Plus CWord; Star CSpace; One closer] prev s =
  if starts_with is_word s then
    match drop_while is_space (drop_while is_word s) with
    | String c rest => if in_class closer c then Some rest else None
    | EmptyString => None
    end
  else None.
Proof.
  destruct s as [|b s]; [reflexivity|].
  change (match_here [Plus CWord; Star CSpace; One closer] prev (String b s))
    with (if is_word b
          then greedy CWord (match_here [Star CSpace; One closer]) (Some b) s
          else None).
  cbn [starts_with drop_while].
  destruct (is_word b) eqn:B; [|reflexivity].
  rewrite greedy_no_backtrack; [apply spaces_then_closer|].
  intros p a t H. simpl in H. rewrite spaces_then_closer.
  cbn [drop_while]. rewrite (word_not_space _ H).
  destruct (in_class closer a) eqn:E; [|reflexivity].
  apply closer_not_word in E. congruence.
Qed.

Lemma spaces_name_then_closer (prev : option ascii) (s : string) :
  match_here [Plus CSpace; Plus CWord; Star CSpace; One closer] prev s =
  if starts_with is_space s
     && starts_with is_word (drop_while is_space s) then
    match
      drop_while is_space (drop_while is_word (drop_while is_space s))
    with
    | String c rest => if in_class closer c then Some rest else None
    | EmptyString => None
    end
  else None.
Proof.
  destruct s as [|a s]; [reflexivity|].
  change (match_here [Plus CSpace; Plus CWord; Star CSpace; One closer] prev
            (String a s))
    with (if is_space a
          then greedy CSpace
                 (match_here [Plus CWord; Star CSpace; One closer])
                 (Some a) s
          else None).
  cbn [starts_with drop_while].
  destruct (is_space a) eqn:A; [|reflexivity].
  cbn [andb].
  rewrite greedy_no_backtrack; [apply name_then_closer|].
  intros p b t H. simpl in H. rewrite name_then_closer.
  cbn [starts_with]. now rewrite (space_not_word _ H).
Qed.

(** At one position the pattern matches exactly a declaration, and what is
    left is the text after its closing character. *)
Lemma declaration_match (prev : option ascii) (s : string) :
  match_here (declaration kw closer) prev s
  = declaration_at kw (in_class closer) prev s.
Proof.
  unfold declaration, declaration_at.
  change (match_here (Boundary :: ?r) prev s)
    with (if at_boundary prev s then match_here r prev s else None).
  rewrite match_here_lits.
  destruct (strip_prefix kw s) as [after_kw|] eqn:P.
  - assert (Hs : head s = Some k0).
    { unfold kw in P. simpl in P. destruct s as [|b s]; [discriminate|].
      destruct (Ascii.eqb k0 b) eqn:E; [|discriminate].
      apply Ascii.eqb_eq in E. now subst b. }
    assert (Hk : is_word k0 = true).
    { unfold kw in kw_word. simpl in kw_word.
      now apply andb_true_iff in kw_word as [H _]. }
    unfold at_boundary. rewrite Hs. simpl word_opt at 2. rewrite Hk.
    destruct (word_opt prev); simpl xorb; cbv iota; [reflexivity|].
    apply spaces_name_then_closer.
  - destruct (at_boundary prev s), (word_opt prev); reflexivity.
Qed.

End SiteMatches.

Section DefinitionSites.

Import PyStr Re WholeWord CodeQualityAnalyzer Sites.

(** When the pattern matches at every position what [site] describes, the
    matches listed by [findall] are as many as the sites. *)
Lemma findall_from_sites (r : regex)
    (site : option ascii -> string -> option string) :
  (forall prev s, match_here r prev s = site prev s) ->
  forall s n prev,
    List.length (findall_from r n prev s) = count_from site n prev s.
Proof.
  intros H. induction s as [|a s IH]; intros n prev.
  - destruct n as [|n]; [|reflexivity].
    rewrite findall_from_here, H. simpl.
    now destruct (site prev "").
  - destruct n as [|n].
    + rewrite findall_from_here, H. cbn [count_from].
      destruct (site prev (String a s)) as [rest|].
      * cbn [List.length]. f_equal. apply IH.
      * apply IH.
    + rewrite findall_from_skip. cbn [count_from]. apply IH.
Qed.

Lemma findall_sites (r : regex)
    (site : option ascii -> string -> option string) (s : string) :
  (forall prev t, match_here r prev t = site prev t) ->
  List.length (findall r s) = count_sites site s.
Proof. intros H. now apply findall_from_sites. Qed.

Lemma func_def_match (prev : option ascii) (s : string) :
  match_here func_def prev s = declaration_at "def" is_paren prev s.
Proof.
  change func_def with (declaration "def" (CLit "(")).
  apply declaration_match; [reflexivity | |];
    intros a H; apply Ascii.eqb_eq in H; now subst a.
Qed.

Lemma class_def_match (prev : option ascii) (s : string) :
  match_here class_def prev s
  = declaration_at "class" is_colon_or_paren prev s.
Proof.
  change class_def
    with (declaration "class" (CAlt (CLit ":") (CLit "("))).
  apply declaration_match; [reflexivity | |];
    intros a H; apply orb_true_iff in H as [H|H];
    apply Ascii.eqb_eq in H; now subst a.
Qed.

End DefinitionSites.

(** ** The sign of a quotient of counts *)

Section QuotientSign.

Import PyFloat.

Lemma shr_1_nonneg (mrs : shr_record) :
  0 <= shr_m mrs -> 0 <= shr_m (shr_1 mrs).
Proof.
  destruct mrs as [m r s]. simpl. intros H.
  destruct m as [|p|p]; [simpl; lia | | lia].
  destruct p; simpl; lia.
Qed.

Lemma iter_shr_1_nonneg (p : positive) :
  forall mrs, 0 <= shr_m mrs -> 0 <= shr_m (iter_pos shr_1 p mrs).
Proof.
  induction p as [p IH|p IH|]; intros mrs H; simpl.
  - apply IH, IH, shr_1_nonneg, H.
  - apply IH, IH, H.
  - apply shr_1_nonneg, H.
Qed.

Lemma shr_fexp_nonneg (m e : Z) (l : location) :
  0 <= m -> 0 <= shr_m (fst (shr_fexp prec emax m e l)).
Proof.
  intros H. unfold shr_fexp, shr.
  assert (H0 : 0 <= shr_m (shr_record_of_loc m l)).
  { destruct l as [|[| |]]; exact H. }
  destruct (fexp prec emax (Zdigits2 m + e) - e); simpl; try exact H0.
  apply iter_shr_1_nonneg, H0.
Qed.

Lemma round_nearest_even_nonneg (m : Z) (l : location) :
  0 <= m -> 0 <= round_nearest_even m l.
Proof.
  intros H. destruct l as [|[| |]]; simpl; try lia.
  destruct (Z.even m); lia.
Qed.

Lemma binary_round_aux_nonneg (m e : Z) (l : location) :
  0 <= m -> nonneg (binary_round_aux prec emax false m e l) = true.
Proof.
  intros H. unfold binary_round_aux.
  pose proof (shr_fexp_nonneg m e l H) as H1.
  destruct (shr_fexp prec emax m e l) as [mrs' e'].
  simpl fst in H1.
  pose proof (shr_fexp_nonneg _ e' loc_Exact
                (round_nearest_even_nonneg _ (loc_of_shr_record mrs') H1))
    as H2.
  destruct (shr_fexp prec emax _ e' loc_Exact) as [mrs'' e''].
  simpl fst in H2.
  destruct (shr_m mrs'') as [|p|p]; [reflexivity | | lia].
  now destruct (e'' <=? emax - prec).
Qed.

Lemma truediv_nonneg (a b : nat) :
  b <> O -> nonneg (truediv (Z.of_nat a) (Z.of_nat b)) = true.
Proof.
  intros Hb. unfold truediv.
  destruct b as [|b]; [now elim Hb|].
  destruct a as [|a]; [reflexivity|].
  cbn [Z.of_nat operand SFdiv xorb].
  remember (Pos.of_succ_nat a) as p. remember (Pos.of_succ_nat b) as q.
  unfold SFdiv_core_binary.
  set (e' := Z.min _ _). set (m' := match 0 - 0 - e' with
                                    | 0 => Z.pos p
                                    | Z.pos _ => Z.shiftl (Z.pos p) (0 - 0 - e')
                                    | Z.neg _ => 0
                                    end).
  assert (Hm : 0 <= m').
  { unfold m'. destruct (0 - 0 - e'); try lia.
    apply Z.shiftl_nonneg. lia. }
  pose proof (Z.div_pos m' (Z.pos q) Hm ltac:(lia)) as Hq.
  unfold Z.div in Hq.
  destruct (Z.div_eucl m' (Z.pos q)) as [qq rr].
  now apply binary_round_aux_nonneg.
Qed.

Lemma nonneg_leb_zero (x : float) : nonneg x = true -> leb zero x = true.
Proof.
  destruct x as [s|s| |s m e]; simpl; try discriminate;
    try (destruct s; [discriminate|reflexivity]).
  reflexivity.
Qed.

Lemma ltb_leb (x y : float) : ltb x y = true -> leb x y = true.
Proof.
  unfold ltb, leb, SFltb, SFleb.
  now destruct (SFcompare x y) as [[| |]|].
Qed.

End QuotientSign.

(** ** Cyclomatic complexity *)

Section Complexity.

Import PyStr Re PyFloat WholeWord CodeQualityAnalyzer Spec Samples.

Lemma add_matches_sum (kws : list string) (code : string) :
  Forall (fun kw => kw <> "" /\ all_word kw = true) kws ->
  forall c,
    add_matches (map whole_word kws) code c
    = c + Z.of_nat (keyword_occurrences kws code).
Proof.
  unfold keyword_occurrences.
  induction 1 as [|kw kws [Hne Hw] _ IH]; intros c; simpl.
  - lia.
  - rewrite IH. destruct kw as [|k0 ks]; [now elim Hne|].
    rewrite (findall_count k0 ks Hw). lia.
Qed.

Lemma keywords_are_words :
  Forall (fun kw => kw <> "" /\ all_word kw = true) keywords.
Proof.
  unfold keywords.
  repeat (constructor; [split; [discriminate | reflexivity]|]).
  constructor.
Qed.

Lemma python_complexity (code language : string) :
  String.eqb (lower language) "python" = true ->
  calculate_cyclomatic_complexity code language
  = 1 + Z.of_nat (keyword_occurrences keywords code).
Proof.
  intros E. unfold calculate_cyclomatic_complexity. rewrite E.
  apply add_matches_sum, keywords_are_words.
Qed.

(** C4: for the "python" tag in any letter case the complexity is 1 plus
    the number of whole-word occurrences of the eight keywords in the text,
    for every other tag it is 1; the text of the end-to-end scenario
    scores 3. *)
Theorem complexity_counts_whole_words (code language : string) :
  calculate_cyclomatic_complexity code language
  = (if String.eqb (lower language) "python"
     then 1 + Z.of_nat (keyword_occurrences
                          ["if"; "elif"; "else"; "for"; "while"; "with";
                           "try"; "except"] code)
     else 1)
  /\ String.eqb (lower "PyThOn") "python" = true
  /\ calculate_cyclomatic_complexity scenario_code "python" = 3.
Proof.
  split; [|split; reflexivity].
  destruct (String.eqb (lower language) "python") eqn:E.
  - now apply python_complexity.
  - unfold calculate_cyclomatic_complexity. now rewrite E.
Qed.

End Complexity.

(** ** Documentation coverage and the bounds of the metrics *)

Section Coverage.

Import PyStr Re PyFloat WholeWord CodeQualityAnalyzer Sites Spec Samples.

Lemma min_one_bounds (x : float) :
  nonneg x = true ->
  leb zero (PyFloat.min one x) = true /\ leb (PyFloat.min one x) one = true.
Proof.
  intros H. unfold PyFloat.min.
  destruct (ltb x one) eqn:L.
  - split; [now apply nonneg_leb_zero | now apply ltb_leb].
  - split; reflexivity.
Qed.

Lemma coverage_bounds (code language : string) :
  leb zero (calculate_doc_coverage code language) = true
  /\ leb (calculate_doc_coverage code language) one = true.
Proof.
  unfold calculate_doc_coverage.
  destruct (String.eqb (lower language) "python").
  - destruct (Nat.eqb (total_definitions code) 0) eqn:E.
    + split; reflexivity.
    + apply min_one_bounds, truediv_nonneg.
      now apply Nat.eqb_neq in E.
  - split; reflexivity.
Qed.

(** C8: for every text and tag the complexity is at least 1 and the coverage
    lies within [0.0, 1.0]; a python-tagged text in which none of the
    keywords occurs scores exactly 1. *)
Theorem metrics_within_bounds (code language : string) :
  1 <= calculate_cyclomatic_complexity code language
  /\ leb zero (calculate_doc_coverage code language) = true
  /\ leb (calculate_doc_coverage code language) one = true
  /\ (String.eqb (lower language) "python" = true ->
      keyword_occurrences keywords code = O ->
      calculate_cyclomatic_complexity code language = 1).
Proof.
  split; [|split; [|split]].
  - destruct (String.eqb (lower language) "python") eqn:E.
    + rewrite (python_complexity _ _ E). lia.
    + unfold calculate_cyclomatic_complexity. rewrite E. lia.
  - apply coverage_bounds.
  - apply coverage_bounds.
  - intros E H. rewrite (python_complexity _ _ E), H. reflexivity.
Qed.

Lemma metrics_within_bounds_witness :
  calculate_cyclomatic_complexity "total = price * 2" "python" = 1.
Proof.
  apply (proj2 (proj2 (proj2
           (metrics_within_bounds "total = price * 2" "python"))));
    reflexivity.
Defined.

End Coverage.

(** ** The record built by [store_code_pattern] *)

Section Storage.

Import PyStr Re PyFloat CodeQualityAnalyzer EnhancedCodeStorage Spec Samples.

(** C1, as the specification has it, fails: version 1 with a predecessor
    named, and version 2 with none, both give a record. *)
Lemma version_chain_unchecked :
  (exists r,
     result (store_code_pattern clock "Binary search" "x = 1" "demo" "python"
               None None None None 1 (Some "binary_search_0") None)
     = Returns r
     /\ version (versioning r) = 1
     /\ previous_version_id (versioning r) = Some "binary_search_0")
  /\ (exists r,
        result (store_code_pattern clock "Binary search" "x = 1" "demo"
                  "python" None None None None 2 None None)
        = Returns r
        /\ version (versioning r) = 2
        /\ previous_version_id (versioning r) = None)
  /\ result (store_code_pattern clock "Binary search" "x = 1" "demo" "python"
               None None None None 1 (Some "binary_search_0") None)
     <> Raises "InvalidVersionChain".
Proof.
  split; [|split].
  - eexists. repeat split.
  - eexists. repeat split.
  - discriminate.
Qed.

(** C1, amended: no version chain is checked.  Whatever the version and the
    predecessor named, the call returns a record whose version fields are
    the arguments as given; so version 2 naming the id of the version-1
    record of the same name is accepted. *)
Theorem version_fields_verbatim
    (now name code explanation language : string)
    (tags : option (list string)) (complexity_level : option string)
    (dependencies : option (list string)) (user_rating : option float)
    (version : Z) (previous_version_id change_log : option string) :
  (exists r,
     result (store_code_pattern now name code explanation language tags
               complexity_level dependencies user_rating version
               previous_version_id change_log)
     = Returns r
     /\ EnhancedCodeStorage.version (versioning r) = version
     /\ EnhancedCodeStorage.previous_version_id (versioning r)
        = previous_version_id
     /\ EnhancedCodeStorage.change_log (versioning r) = change_log
     /\ updated_at (versioning r) = now)
  /\ (exists r1 r2,
        result (store_code_pattern now name code explanation language tags
                  complexity_level dependencies user_rating 1 None None)
        = Returns r1
        /\ result (store_code_pattern now name code explanation language
                     tags complexity_level dependencies user_rating 2
                     (Some (id r1)) change_log)
           = Returns r2
        /\ EnhancedCodeStorage.previous_version_id (versioning r2)
           = Some (assign_id name 1)).
Proof.
  split.
  - eexists. repeat split.
  - do 2 eexists. repeat split.
Qed.

(** C2, as the specification has it, fails: the ratings 5.1 and -0.1 lie
    outside [0.0, 5.0] and are stored all the same. *)
Lemma rating_unchecked :
  rating_in_range (literal 51 10) = false
  /\ rating_in_range (literal (-1) 10) = false
  /\ (exists r,
        result (store_code_pattern clock "Binary search" "x = 1" "demo"
                  "python" None None None (Some (literal 51 10)) 1 None None)
        = Returns r
        /\ user_rating r = Some (literal 51 10))
  /\ (exists r,
        result (store_code_pattern clock "Binary search" "x = 1" "demo"
                  "python" None None None (Some (literal (-1) 10)) 1 None
                  None)
        = Returns r
        /\ user_rating r = Some (literal (-1) 10))
  /\ result (store_code_pattern clock "Binary search" "x = 1" "demo" "python"
               None None None (Some (literal 51 10)) 1 None None)
     <> Raises "InvalidRating".
Proof.
  split; [reflexivity|]. split; [reflexivity|].
  split; [eexists; split; reflexivity|].
  split; [eexists; split; reflexivity|].
  discriminate.
Qed.

(** C2, amended: no rating is checked.  Every supplied rating, within
    [0.0, 5.0] or not, is stored in the record as given, and a call without
    a rating leaves the key out; the bounds 0.0 and 5.0 lie within the
    range. *)
Theorem rating_stored_verbatim
    (now name code explanation language : string)
    (tags : option (list string)) (complexity_level : option string)
    (dependencies : option (list string)) (user_rating : option float)
    (version : Z) (previous_version_id change_log : option string) :
  (exists r,
     result (store_code_pattern now name code explanation language tags
               complexity_level dependencies user_rating version
               previous_version_id change_log)
     = Returns r
     /\ EnhancedCodeStorage.user_rating r = user_rating)
  /\ rating_in_range zero = true
  /\ rating_in_range five = true.
Proof.
  split; [|split; reflexivity].
  eexists. split; [reflexivity|]. now destruct user_rating.
Qed.

(** C5: a level given by the caller is kept as it is, whatever the score;
    without one a score up to 5 is "simple", from 6 to 10 "intermediate"
    and above 10 "advanced".  The record carries the level so determined
    from the complexity of its code. *)
Theorem complexity_level_tiers :
  (forall level score,
     determine_complexity_level (Some level) score = level)
  /\ (forall score,
        score <= 5 -> determine_complexity_level None score = "simple")
  /\ (forall score,
        6 <= score <= 10 ->
        determine_complexity_level None score = "intermediate")
  /\ (forall score,
        10 < score -> determine_complexity_level None score = "advanced")
  /\ (forall now name code explanation language tags complexity_level
             dependencies user_rating version previous_version_id change_log,
        exists r,
          result (store_code_pattern now name code explanation language tags
                    complexity_level dependencies user_rating version
                    previous_version_id change_log)
          = Returns r
          /\ EnhancedCodeStorage.complexity_level r
             = determine_complexity_level complexity_level
                 (calculate_cyclomatic_complexity code language)).
Proof.
  unfold determine_complexity_level.
  split; [reflexivity|]. split; [|split; [|split]].
  - intros score H. apply Z.leb_le in H. now rewrite H.
  - intros score [H1 H2].
    assert (E : (score <=? 5) = false) by (apply Z.leb_gt; lia).
    apply Z.leb_le in H2. now rewrite E, H2.
  - intros score H.
    assert (E1 : (score <=? 5) = false) by (apply Z.leb_gt; lia).
    assert (E2 : (score <=? 10) = false) by (apply Z.leb_gt; lia).
    now rewrite E1, E2.
  - intros. eexists. split; reflexivity.
Qed.

Lemma complexity_level_tiers_witness :
  determine_complexity_level None 5 = "simple"
  /\ determine_complexity_level None 6 = "intermediate"
  /\ determine_complexity_level None 10 = "intermediate"
  /\ determine_complexity_level None 11 = "advanced"
  /\ determine_complexity_level (Some "simple") 11 = "simple".
Proof.
  destruct complexity_level_tiers as (H0 & H1 & H2 & H3 & _).
  split; [apply H1; lia|].
  split; [apply H2; lia|].
  split; [apply H2; lia|].
  split; [apply H3; lia|].
  apply H0.
Defined.

Lemma replace_no_space (s : string) : no_space (replace " " "_" s) = true.
Proof.
  unfold replace. induction s as [|a s IH]; simpl; [reflexivity|].
  rewrite IH, andb_true_r.
  destruct (Ascii.eqb a " ") eqn:E; [reflexivity|]. now rewrite E.
Qed.

Lemma map_chars_length (f : ascii -> ascii) (s : string) :
  String.length (map_chars f s) = String.length s.
Proof. induction s as [|a s IH]; simpl; congruence. Qed.

(** C10: the tags and the dependencies of the record are the lists given,
    and the empty list when the argument is left out or [None]. *)
Theorem omitted_lists_are_empty
    (now name code explanation language : string)
    (tags : option (list string)) (complexity_level : option string)
    (dependencies : option (list string)) (user_rating : option float)
    (version : Z) (previous_version_id change_log : option string) :
  (exists r,
     result (store_code_pattern now name code explanation language tags
               complexity_level dependencies user_rating version
               previous_version_id change_log)
     = Returns r
     /\ EnhancedCodeStorage.tags r = list_or_empty tags
     /\ EnhancedCodeStorage.dependencies r = list_or_empty dependencies)
  /\ (exists r,
        result (store_code_pattern now name code explanation language None
                  complexity_level None user_rating version
                  previous_version_id change_log)
        = Returns r
        /\ EnhancedCodeStorage.tags r = []
        /\ EnhancedCodeStorage.dependencies r = []).
Proof.
  split.
  - eexists. split; [reflexivity|]. cbn.
    split; [now destruct tags as [[|]|] | now destruct dependencies as [[|]|]].
  - eexists. repeat split.
Qed.

End Storage.

(** ** The retrieval filter *)

Section Filter.

Import PyStr PyFloat EnhancedCodeStorage Spec Samples.

Lemma append_str_clause (clause : string -> fstring) (x : option string)
    (filters : list fstring) :
  append_if str_truthy clause x filters
  = (filters ++ clause_if_supplied clause (nonempty_str x))%list.
Proof.
  destruct x as [[|a s]|]; simpl; now rewrite ?app_nil_r.
Qed.

Lemma append_tags_clause (x : option (list string))
    (filters : list fstring) :
  append_if list_truthy tags_clause x filters
  = (filters ++ clause_if_supplied tags_clause (nonempty_list x))%list.
Proof.
  destruct x as [[|a l]|]; simpl; now rewrite ?app_nil_r.
Qed.

Lemma append_rating_clause (x : option float) (filters : list fstring) :
  (forall rating, x = Some rating -> truthy rating = true) ->
  append_if truthy rating_clause x filters
  = (filters ++ clause_if_supplied rating_clause x)%list.
Proof.
  intros H. destruct x as [rating|]; simpl; [|now rewrite app_nil_r].
  now rewrite (H rating eq_refl).
Qed.

(** A minimum rating of 0.0 adds no clause. *)
Lemma zero_rating_adds_no_clause :
  build_filters None None (Some zero) None = [].
Proof. reflexivity. Qed.

End Filter.

(** ** Further properties of the search and of the record *)

Section SearchLine.

Import PyStr PyFloat EnhancedCodeStorage Spec Facts.

Lemma append_if_cases {A : Type} (truth : A -> bool) (clause : A -> fstring)
    (x : option A) (filters : list fstring) :
  (append_if truth clause x filters = filters)
  \/ (exists v, x = Some v /\ truth v = true
                /\ append_if truth clause x filters
                   = (filters ++ [clause v])%list).
Proof.
  destruct x as [v|]; simpl; [|now left].
  destruct (truth v) eqn:E; [right; now exists v | now left].
Qed.

Lemma append_if_clause_like {A : Type} (truth : A -> bool)
    (clause : A -> fstring) (x : option A) (filters : list fstring) :
  (forall v, clause_like (clause v)) ->
  Forall clause_like filters ->
  Forall clause_like (append_if truth clause x filters).
Proof.
  intros Hc Hf.
  destruct (append_if_cases truth clause x filters) as [E|(v & _ & _ & E)];
    rewrite E; [exact Hf|].
  apply Forall_app. split; [exact Hf|]. constructor; [apply Hc|constructor].
Qed.

Lemma build_filters_clause_like
    (language complexity_level : option string) (min_rating : option float)
    (required_tags : option (list string)) :
  Forall clause_like
    (build_filters language complexity_level min_rating required_tags).
Proof.
  unfold build_filters.
  repeat apply append_if_clause_like; try constructor;
    intros v; eexists; eexists; (split; [reflexivity|]); discriminate.
Qed.

Lemma fjoin_truthy (sep : string) (l : list fstring) :
  Forall clause_like l -> l <> [] -> fstring_truthy (fjoin sep l) = true.
Proof.
  intros H Hne. destruct H as [|f l (s & rest & -> & Hs) _];
    [now elim Hne|].
  apply String.eqb_neq in Hs.
  destruct l; simpl; now rewrite Hs.
Qed.

(** X1: the search returns the empty list and prints one line; the line
    names the filter exactly when at least one clause was built. *)
Theorem search_line_names_filter (query : string)
    (language complexity_level : option string) (min_rating : option float)
    (required_tags : option (list string)) :
  let clauses :=
    build_filters language complexity_level min_rating required_tags in
  result (find_similar_code query language complexity_level min_rating
            required_tags) = Returns []
  /\ printed (find_similar_code query language complexity_level min_rating
                required_tags)
     = match clauses with
       | [] => [plain_search_line query]
       | _ :: _ => [filtered_search_line query clauses]
       end.
Proof.
  intros clauses. split; [reflexivity|].
  unfold find_similar_code, filter_str. fold clauses.
  pose proof (build_filters_clause_like language complexity_level min_rating
                required_tags) as H.
  fold clauses in H.
  destruct clauses as [|f l] eqn:E; [reflexivity|].
  rewrite (fjoin_truthy " AND " (f :: l) H); [reflexivity|discriminate].
Qed.

End SearchLine.

Section RecordFacts.

Import PyStr Re PyFloat WholeWord CodeQualityAnalyzer EnhancedCodeStorage.
Import Spec Facts Samples.

(** X2: the record of the enhanced utility, cut down to the keys of the
    sample utility, is the record the sample utility builds from the same
    name, code, explanation, language and tags. *)
Theorem enhanced_record_extends_sample
    (now name code explanation language : string)
    (tags : option (list string)) (complexity_level : option string)
    (dependencies : option (list string)) (user_rating : option float)
    (version : Z) (previous_version_id change_log : option string) :
  exists r,
    result (store_code_pattern now name code explanation language tags
              complexity_level dependencies user_rating version
              previous_version_id change_log)
    = Returns r
    /\ result (SampleCodeStorage.store_code_pattern name code explanation
                 language tags)
       = Returns (basic_keys r).
Proof. eexists. split; reflexivity. Qed.

(** X3: without a level from the caller, a python text is "simple" up to
    4 keyword occurrences, "intermediate" from 5 to 9 and "advanced" from
    10 on. *)
Theorem python_level_by_occurrences
    (now name code explanation language : string)
    (tags dependencies : option (list string)) (user_rating : option float)
    (version : Z) (previous_version_id change_log : option string) :
  String.eqb (lower language) "python" = true ->
  exists r,
    result (store_code_pattern now name code explanation language tags None
              dependencies user_rating version previous_version_id
              change_log)
    = Returns r
    /\ EnhancedCodeStorage.complexity_level r
       = tier_of_occurrences (keyword_occurrences keywords code).
Proof.
  intros E. eexists. split; [reflexivity|].
  cbn [EnhancedCodeStorage.complexity_level determine_complexity_level].
  rewrite (python_complexity _ _ E). unfold tier_of_occurrences.
  set (n := keyword_occurrences keywords code).
  replace (1 + Z.of_nat n <=? 5) with (n <=? 4)%nat
    by (destruct (Nat.leb_spec n 4); symmetry;
        [apply Z.leb_le | apply Z.leb_gt]; lia).
  replace (1 + Z.of_nat n <=? 10) with (n <=? 9)%nat
    by (destruct (Nat.leb_spec n 9); symmetry;
        [apply Z.leb_le | apply Z.leb_gt]; lia).
  reflexivity.
Qed.

Lemma python_level_by_occurrences_witness :
  exists r,
    result (store_code_pattern clock "f" scenario_code "demo" "Python" None
              None None None 1 None None)
    = Returns r
    /\ EnhancedCodeStorage.complexity_level r = "simple".
Proof.
  destruct (python_level_by_occurrences clock "f" scenario_code "demo"
              "Python" None None None 1 None None eq_refl)
    as (r & Hr & Hl).
  exists r. split; [exact Hr|]. rewrite Hl. reflexivity.
Defined.

(** X4: for a language other than python the record does not depend on
    the code: complexity 1, coverage 0.5 and, without a level from the
    caller, the level "simple". *)
Theorem other_language_defaults
    (now name code explanation language : string)
    (tags : option (list string)) (complexity_level : option string)
    (dependencies : option (list string)) (user_rating : option float)
    (version : Z) (previous_version_id change_log : option string) :
  String.eqb (lower language) "python" = false ->
  exists r,
    result (store_code_pattern now name code explanation language tags
              complexity_level dependencies user_rating version
              previous_version_id change_log)
    = Returns r
    /\ cyclomatic_complexity (metrics r) = 1
    /\ documentation_coverage (metrics r) = half
    /\ EnhancedCodeStorage.complexity_level r
       = match complexity_level with
         | Some level => level
         | None => "simple"
         end.
Proof.
  intros E. eexists. split; [reflexivity|].
  cbn [metrics cyclomatic_complexity documentation_coverage
       EnhancedCodeStorage.complexity_level].
  unfold calculate_cyclomatic_complexity, calculate_doc_coverage.
  rewrite E. split; [reflexivity|]. split; [reflexivity|].
  now destruct complexity_level.
Qed.

Lemma other_language_defaults_witness :
  exists r,
    result (store_code_pattern clock "f" scenario_code "demo" "rust" None
              None None None 1 None None)
    = Returns r
    /\ cyclomatic_complexity (metrics r) = 1
    /\ documentation_coverage (metrics r) = half
    /\ EnhancedCodeStorage.complexity_level r = "simple".
Proof.
  exact (other_language_defaults clock "f" scenario_code "demo" "rust" None
           None None None 1 None None eq_refl).
Defined.

End RecordFacts.

(** ** Ids *)

Section Ids.

Import PyStr EnhancedCodeStorage Facts.

Lemma map_chars_map_chars (f g : ascii -> ascii) (s : string) :
  map_chars f (map_chars g s) = map_chars (fun a => f (g a)) s.
Proof. induction s as [|a s IH]; simpl; congruence. Qed.

Lemma map_chars_ext (f g : ascii -> ascii) (s : string) :
  (forall a, f a = g a) -> map_chars f s = map_chars g s.
Proof. intros H. induction s as [|a s IH]; simpl; congruence. Qed.

Lemma slug_char_idempotent (a : ascii) :
  let h := fun a => if Ascii.eqb (lower_char a) " " then "_"%char
                    else lower_char a in
  h (h a) = h a.
Proof.
  destruct a as [[] [] [] [] [] [] [] []]; vm_compute; reflexivity.
Qed.

Lemma slug_idempotent (name : string) : slug (slug name) = slug name.
Proof.
  unfold slug, replace, lower. rewrite !map_chars_map_chars.
  apply map_chars_ext. intros a. apply slug_char_idempotent.
Qed.

Lemma uint_text_no_underscore (d : Decimal.uint) :
  no_char "_" (NilEmpty.string_of_uint d) = true.
Proof. induction d; simpl; auto. Qed.

Lemma of_int_no_underscore (v : Z) : no_char "_" (of_int v) = true.
Proof.
  unfold of_int. destruct (Z.to_int v); simpl;
    apply uint_text_no_underscore.
Qed.

Lemma of_int_inj (v1 v2 : Z) : of_int v1 = of_int v2 -> v1 = v2.
Proof.
  unfold of_int. intros H.
  apply (f_equal NilEmpty.int_of_string) in H.
  rewrite !NilEmpty.isi in H. injection H as H.
  now apply DecimalZ.to_int_inj.
Qed.

Lemma no_char_app_char (c : ascii) (a b : string) :
  no_char c (a ++ String c b) = false.
Proof.
  induction a as [|x a IH]; simpl.
  - now rewrite Ascii.eqb_refl.
  - rewrite IH. apply andb_false_r.
Qed.

(** A text is split in one way only at its last underscore. *)
Lemma split_at_last_underscore (a : string) :
  forall b t1 t2,
    no_char "_" t1 = true -> no_char "_" t2 = true ->
    a ++ "_" ++ t1 = b ++ "_" ++ t2 ->
    a = b /\ t1 = t2.
Proof.
  induction a as [|x a IH]; intros b t1 t2 H1 H2 E.
  - destruct b as [|y b]; simpl in E.
    + injection E as E. now split.
    + injection E as Ey E. subst t1.
      now rewrite no_char_app_char in H1.
  - destruct b as [|y b]; simpl in E.
    + injection E as Ex E. subst t2.
      now rewrite no_char_app_char in H2.
    + injection E as Ex E. subst y.
      destruct (IH b t1 t2 H1 H2 E) as [-> ->]. now split.
Qed.

(** X5: two ids are equal exactly when the names have the same slug and
    the versions are equal; a name and its slug give the same id. *)
Theorem id_collisions (name1 name2 : string) (version1 version2 : Z) :
  (assign_id name1 version1 = assign_id name2 version2
   <-> slug name1 = slug name2 /\ version1 = version2)
  /\ assign_id (slug name1) version1 = assign_id name1 version1.
Proof.
  split.
  - unfold assign_id. fold (slug name1) (slug name2). split.
    + intros E.
      apply split_at_last_underscore in E;
        try apply of_int_no_underscore.
      destruct E as [Es Ev]. split; [exact Es|]. now apply of_int_inj.
    + intros [-> ->]. reflexivity.
  - unfold assign_id. fold (slug name1) (slug (slug name1)).
    now rewrite slug_idempotent.
Qed.

Lemma id_collisions_witness :
  assign_id "Binary Search" 2 = assign_id "binary_search" 2
  /\ assign_id "binary search" 1 <> assign_id "binary search" 2.
Proof.
  split.
  - apply (proj1 (id_collisions "Binary Search" "binary_search" 2 2)).
    split; reflexivity.
  - intros E.
    apply (proj1 (id_collisions "binary search" "binary search" 1 2)) in E.
    destruct E as [_ E]. discriminate E.
Defined.

End Ids.

(** ** Quotients of at least one *)

Section QuotientAboveOne.

Import PyFloat.

Lemma shr_1_half (mrs : shr_record) :
  0 <= shr_m mrs -> shr_m (shr_1 mrs) = shr_m mrs / 2.
Proof.
  destruct mrs as [m r s]. simpl. intros H.
  destruct m as [|p|p]; [reflexivity | | lia].
  destruct p as [p|p|]; simpl shr_m.
  - rewrite Pos2Z.inj_xI. apply Z.div_unique with 1; lia.
  - rewrite Pos2Z.inj_xO. apply Z.div_unique with 0; lia.
  - reflexivity.
Qed.

Lemma iter_shr_1_div (p : positive) :
  forall mrs,
    0 <= shr_m mrs ->
    shr_m (iter_pos shr_1 p mrs) = shr_m mrs / 2 ^ Z.pos p.
Proof.
  induction p as [p IH|p IH|]; intros mrs H; simpl iter_pos.
  - rewrite IH by (apply iter_shr_1_nonneg, shr_1_nonneg, H).
    rewrite IH by (apply shr_1_nonneg, H).
    rewrite shr_1_half by exact H.
    rewrite !Z.div_div by lia.
    f_equal. rewrite <- Z.pow_add_r by lia.
    rewrite <- (Z.pow_succ_r 2) by lia. f_equal. lia.
  - rewrite IH by (apply iter_shr_1_nonneg, H).
    rewrite IH by exact H.
    rewrite Z.div_div by lia.
    f_equal. rewrite <- Z.pow_add_r by lia. f_equal. lia.
  - rewrite shr_1_half by exact H. reflexivity.
Qed.

Lemma digits2_bounds (p : positive) :
  2 ^ (Z.pos (digits2_pos p) - 1) <= Z.pos p < 2 ^ Z.pos (digits2_pos p).
Proof.
  assert (step : forall D, 1 <= D ->
            2 ^ (Z.succ D - 1) = 2 * 2 ^ (D - 1)
            /\ 2 ^ Z.succ D = 2 * 2 ^ D).
  { intros D HD. split.
    - replace (Z.succ D - 1) with (Z.succ (D - 1)) by lia.
      apply Z.pow_succ_r. lia.
    - apply Z.pow_succ_r. lia. }
  induction p as [p IH|p IH|]; simpl digits2_pos.
  - rewrite Pos2Z.inj_succ.
    destruct (step (Z.pos (digits2_pos p))) as [-> ->]; lia.
  - rewrite Pos2Z.inj_succ.
    destruct (step (Z.pos (digits2_pos p))) as [-> ->]; lia.
  - simpl. lia.
Qed.

(** The value [m * 2^e] is at least 1. *)
Let above_one (m e : Z) : Prop := 1 <= m /\ (e <= 0 -> 2 ^ (- e) <= m).

Lemma shr_fexp_above_one (m e : Z) (l : location) :
  above_one m e ->
  above_one (shr_m (fst (shr_fexp prec emax m e l)))
            (snd (shr_fexp prec emax m e l))
  /\ -52 <= snd (shr_fexp prec emax m e l).
Proof.
  intros [H1 H2].
  destruct m as [|p|p]; try lia.
  pose proof (digits2_bounds p) as [Lo Hi].
  set (D := Z.pos (digits2_pos p)) in *.
  assert (HD : 1 <= D + e).
  { destruct (Z.leb_spec e 0) as [He|He]; [|lia].
    specialize (H2 He).
    assert (2 ^ (- e) < 2 ^ D) by lia.
    apply Z.pow_lt_mono_r_iff in H; lia. }
  unfold shr_fexp, shr. cbn [Zdigits2]. fold D.
  assert (F : fexp prec emax (D + e) = D + e - 53).
  { unfold fexp, SpecFloat.emin, prec, emax. lia. }
  rewrite F.
  assert (S0 : shr_m (shr_record_of_loc (Z.pos p) l) = Z.pos p)
    by (destruct l as [|[| |]]; reflexivity).
  destruct (D + e - 53 - e) as [|k|k] eqn:K; cbn [fst snd].
  - rewrite S0. split; [split; assumption | lia].
  - rewrite iter_shr_1_div by (rewrite S0; lia). rewrite S0.
    assert (Hk : Z.pos k = D - 53) by lia.
    assert (Hm : 2 ^ 52 <= Z.pos p / 2 ^ Z.pos k).
    { apply Z.div_le_lower_bound; [lia|].
      rewrite <- Z.pow_add_r by lia.
      replace (Z.pos k + 52) with (D - 1) by lia. exact Lo. }
    split; [split|]; [lia | | lia].
    intros He.
    apply Z.le_trans with (2 ^ 52); [|exact Hm].
    apply Z.pow_le_mono_r; lia.
  - rewrite S0. split; [split; assumption | lia].
Qed.

Lemma round_nearest_even_above_one (m e : Z) (l : location) :
  above_one m e -> above_one (round_nearest_even m l) e.
Proof.
  intros [H1 H2].
  assert (m <= round_nearest_even m l).
  { destruct l as [|[| |]]; simpl; try lia. destruct (Z.even m); lia. }
  split; [lia|]. intros He. specialize (H2 He). lia.
Qed.

Lemma binary_round_aux_not_below_one (m e : Z) (l : location) :
  above_one m e ->
  ltb (binary_round_aux prec emax false m e l) one = false.
Proof.
  intros H. unfold binary_round_aux.
  destruct (shr_fexp_above_one m e l H) as [H1 _].
  destruct (shr_fexp prec emax m e l) as [mrs' e']. cbn [fst snd] in H1.
  apply (round_nearest_even_above_one _ _ (loc_of_shr_record mrs')) in H1.
  destruct (shr_fexp_above_one _ _ loc_Exact H1) as [[H2 H3] H4].
  destruct (shr_fexp prec emax _ e' loc_Exact) as [mrs'' e''].
  cbn [fst snd] in H2, H3, H4.
  destruct (shr_m mrs'') as [|p|p]; try lia.
  destruct (e'' <=? emax - prec); [|reflexivity].
  unfold ltb, SFltb. change one with (S754_finite false 4503599627370496 (-52)).
  cbn [SFcompare].
  destruct (Z.compare_spec e'' (-52)) as [E|E|E]; [|lia|reflexivity].
  assert (Hp : 2 ^ 52 <= Z.pos p).
  { specialize (H3 ltac:(lia)). rewrite E in H3. exact H3. }
  rewrite Pos.compare_cont_spec.
  destruct (Pos.compare p _) eqn:C; [reflexivity| |reflexivity].
  exfalso. apply Pos.compare_lt_iff, Pos2Z.pos_lt_pos in C.
  apply (Z.lt_irrefl (Z.pos p)).
  eapply Z.lt_le_trans; [exact C | exact Hp].
Qed.

(** A count divided by a count that is not larger is not below 1.0. *)
Lemma truediv_not_below_one (a b : nat) :
  b <> O -> (b <= a)%nat ->
  ltb (truediv (Z.of_nat a) (Z.of_nat b)) one = false.
Proof.
  intros Hb Hab. unfold truediv.
  destruct b as [|b]; [now elim Hb|].
  destruct a as [|a]; [lia|].
  cbn [Z.of_nat operand SFdiv xorb].
  assert (Hpq : Z.pos (Pos.of_succ_nat b) <= Z.pos (Pos.of_succ_nat a))
    by lia.
  set (p := Pos.of_succ_nat a) in *. set (q := Pos.of_succ_nat b) in *.
  unfold SFdiv_core_binary.
  set (e' := Z.min _ _).
  assert (He : e' <= 0) by (unfold e'; lia).
  set (m' := match 0 - 0 - e' with
             | 0 => Z.pos p
             | Z.pos _ => Z.shiftl (Z.pos p) (0 - 0 - e')
             | Z.neg _ => 0
             end).
  assert (Hm : m' = Z.pos p * 2 ^ (- e')).
  { unfold m'. replace (0 - 0 - e') with (- e') by lia.
    destruct (- e') as [|k|k] eqn:K; try lia.
    apply Z.shiftl_mul_pow2. lia. }
  assert (Hq : 2 ^ (- e') <= m' / Z.pos q).
  { apply Z.div_le_lower_bound; [lia|]. rewrite Hm.
    apply Z.mul_le_mono_nonneg_r; [apply Z.pow_nonneg; lia | exact Hpq]. }
  unfold Z.div in Hq.
  destruct (Z.div_eucl m' (Z.pos q)) as [qq rr].
  apply binary_round_aux_not_below_one.
  pose proof (Z.pow_pos_nonneg 2 (- e') ltac:(lia) ltac:(lia)) as Hpos.
  split; [lia|]. intros _. exact Hq.
Qed.

End QuotientAboveOne.

(** ** The ends of the coverage scale *)

Section CoverageEnds.

Import PyStr Re PyFloat CodeQualityAnalyzer EnhancedCodeStorage.
Import Facts Samples MoreSamples.

Lemma truediv_zero (b : nat) :
  b <> O -> truediv 0 (Z.of_nat b) = zero.
Proof. destruct b as [|b]; [intros H; now elim H | reflexivity]. Qed.

(** X6: a python text with definitions and no docstring has coverage 0.0;
    one with at least as many docstrings as definitions has coverage 1.0,
    the cap of the scale.  The record stores these two values as they
    are. *)
Theorem coverage_ends
    (now name code explanation language : string)
    (tags : option (list string)) (complexity_level : option string)
    (dependencies : option (list string)) (user_rating : option float)
    (version : Z) (previous_version_id change_log : option string) :
  String.eqb (lower language) "python" = true ->
  total_definitions code <> O ->
  (docstring_count code = O ->
   calculate_doc_coverage code language = zero)
  /\ ((total_definitions code <= docstring_count code)%nat ->
      calculate_doc_coverage code language = one)
  /\ exists r,
       result (store_code_pattern now name code explanation language tags
                 complexity_level dependencies user_rating version
                 previous_version_id change_log)
       = Returns r
       /\ (docstring_count code = O ->
           documentation_coverage (metrics r) = zero)
       /\ ((total_definitions code <= docstring_count code)%nat ->
           documentation_coverage (metrics r) = one).
Proof.
  intros E D.
  assert (C0 : docstring_count code = O ->
               calculate_doc_coverage code language = zero).
  { intros H. unfold calculate_doc_coverage. rewrite E.
    rewrite (proj2 (Nat.eqb_neq _ _) D), H.
    change (Z.of_nat 0) with 0. now rewrite (truediv_zero _ D). }
  assert (C1 : (total_definitions code <= docstring_count code)%nat ->
               calculate_doc_coverage code language = one).
  { intros H. unfold calculate_doc_coverage. rewrite E.
    pose proof (truediv_not_below_one _ _ D H) as L.
    apply Nat.eqb_neq in D. rewrite D.
    unfold PyFloat.min. now rewrite L. }
  split; [exact C0|]. split; [exact C1|].
  eexists. split; [reflexivity|].
  cbn [metrics documentation_coverage]. split; intros H.
  - now rewrite (C0 H).
  - now rewrite (C1 H).
Qed.

Lemma coverage_ends_witness :
  calculate_doc_coverage bare_code "python" = zero
  /\ calculate_doc_coverage documented_code "python" = one.
Proof.
  split.
  - apply (coverage_ends clock "area" bare_code "demo" "python" None None
             None None 1 None None eq_refl);
      [discriminate | reflexivity].
  - apply (coverage_ends clock "area" documented_code "demo" "python" None
             None None None 1 None None eq_refl);
      [discriminate | vm_compute; lia].
Defined.

End CoverageEnds.

(** ** Complexity of texts put together *)

Section JoinedTexts.

Import PyStr Re WholeWord CodeQualityAnalyzer Spec.

Variable sep : ascii.
Hypothesis sep_not_word : is_word sep = false.

Lemma strip_prefix_before_sep (kw : string) :
  all_word kw = true ->
  forall s1 s2,
    strip_prefix kw (s1 ++ String sep s2)
    = match strip_prefix kw s1 with
      | Some r => Some (r ++ String sep s2)
      | None => None
      end.
Proof.
  induction kw as [|k kw IH]; intros W s1 s2; [reflexivity|].
  simpl in W. apply andb_true_iff in W as [Wk W].
  destruct s1 as [|a s1]; simpl.
  - destruct (Ascii.eqb k sep) eqn:E; [|reflexivity].
    apply Ascii.eqb_eq in E. congruence.
  - destruct (Ascii.eqb k a); [now apply IH | reflexivity].
Qed.

Lemma whole_word_at_before_sep (kw : string) (prev : option ascii)
    (s1 s2 : string) :
  all_word kw = true ->
  whole_word_at kw prev (s1 ++ String sep s2) = whole_word_at kw prev s1.
Proof.
  intros W. unfold whole_word_at.
  rewrite (strip_prefix_before_sep kw W).
  destruct (strip_prefix kw s1) as [r|]; [|reflexivity].
  destruct r; simpl; [now rewrite sep_not_word | reflexivity].
Qed.

Lemma count_whole_word_prev (kw : string) (prev prev' : option ascii)
    (s : string) :
  word_opt prev = word_opt prev' ->
  count_whole_word kw prev s = count_whole_word kw prev' s.
Proof.
  intros H. destruct s; simpl; unfold whole_word_at; now rewrite H.
Qed.

Lemma count_whole_word_join (kw : string) (s1 s2 : string) :
  kw <> "" -> all_word kw = true ->
  forall prev,
    count_whole_word kw prev (s1 ++ String sep s2)
    = (count_whole_word kw prev s1 + count_whole_word kw None s2)%nat.
Proof.
  intros Hne W. induction s1 as [|a s1 IH]; intros prev.
  - pose proof (whole_word_at_before_sep kw prev "" s2 W) as H.
    simpl append in *. cbn [count_whole_word]. rewrite H.
    rewrite (count_whole_word_prev kw (Some sep) None s2)
      by (simpl; exact sep_not_word).
    lia.
  - pose proof (whole_word_at_before_sep kw prev (String a s1) s2 W) as H.
    simpl append in *. cbn [count_whole_word]. rewrite H, IH. lia.
Qed.

Lemma keyword_occurrences_join (kws : list string) (s1 s2 : string) :
  Forall (fun kw => kw <> "" /\ all_word kw = true) kws ->
  keyword_occurrences kws (s1 ++ String sep s2)
  = (keyword_occurrences kws s1 + keyword_occurrences kws s2)%nat.
Proof.
  unfold keyword_occurrences.
  induction 1 as [|kw kws [Hne W] _ IH]; simpl; [reflexivity|].
  rewrite IH, (count_whole_word_join kw s1 s2 Hne W). lia.
Qed.

(** X7: two texts put together with a character between them that is not
    a word character, a new line for one, score the sum of their scores
    less the one base point counted twice. *)
Theorem complexity_of_joined_texts (code1 code2 language : string) :
  calculate_cyclomatic_complexity (code1 ++ String sep code2) language
  = calculate_cyclomatic_complexity code1 language
    + calculate_cyclomatic_complexity code2 language - 1.
Proof.
  destruct (String.eqb (lower language) "python") eqn:E.
  - rewrite !(python_complexity _ _ E).
    rewrite (keyword_occurrences_join _ _ _ keywords_are_words). lia.
  - unfold calculate_cyclomatic_complexity. rewrite E. reflexivity.
Qed.

End JoinedTexts.

Lemma complexity_of_joined_texts_witness :
  CodeQualityAnalyzer.calculate_cyclomatic_complexity
    ("if a: b" ++ PyStr.nl ++ "while c: d") "python"
  = 2 + 2 - 1.
Proof.
  exact (complexity_of_joined_texts "010"%char eq_refl "if a: b"
           "while c: d" "python").
Defined.

(** ** One keyword at a position at most *)

Section OneKeywordPerPosition.

Import PyStr Re WholeWord CodeQualityAnalyzer Spec.

Lemma list_sum_cons (x : nat) (l : list nat) :
  list_sum (x :: l) = (x + list_sum l)%nat.
Proof. reflexivity. Qed.

Lemma whole_word_unique (kw1 : string) :
  forall kw2 s r1 r2,
    all_word kw1 = true -> all_word kw2 = true ->
    strip_prefix kw1 s = Some r1 -> word_opt (head r1) = false ->
    strip_prefix kw2 s = Some r2 -> word_opt (head r2) = false ->
    kw1 = kw2.
Proof.
  induction kw1 as [|k1 kw1 IH]; intros kw2 s r1 r2 W1 W2 P1 H1 P2 H2.
  - simpl in P1. injection P1 as <-.
    destruct kw2 as [|k2 kw2]; [reflexivity|].
    simpl in W2, P2. apply andb_true_iff in W2 as [Wk _].
    destruct s as [|a s]; [discriminate|].
    destruct (Ascii.eqb k2 a) eqn:E; [|discriminate].
    apply Ascii.eqb_eq in E. subst a. simpl in H1. congruence.
  - simpl in W1, P1. apply andb_true_iff in W1 as [Wk1 W1].
    destruct s as [|a s]; [discriminate|].
    destruct (Ascii.eqb k1 a) eqn:E1; [|discriminate].
    apply Ascii.eqb_eq in E1. subst a.
    destruct kw2 as [|k2 kw2].
    + simpl in P2. injection P2 as <-. simpl in H2. congruence.
    + simpl in W2, P2. apply andb_true_iff in W2 as [_ W2].
      destruct (Ascii.eqb k2 k1) eqn:E2; [|discriminate].
      apply Ascii.eqb_eq in E2. subst k2.
      f_equal. now apply (IH kw2 s r1 r2).
Qed.

Lemma whole_word_at_unique (kw1 kw2 : string) (prev : option ascii)
    (s : string) :
  all_word kw1 = true -> all_word kw2 = true ->
  whole_word_at kw1 prev s = true -> whole_word_at kw2 prev s = true ->
  kw1 = kw2.
Proof.
  unfold whole_word_at. intros W1 W2 H1 H2.
  apply andb_true_iff in H1 as [_ H1]. apply andb_true_iff in H2 as [_ H2].
  destruct (strip_prefix kw1 s) as [r1|] eqn:P1; [|discriminate].
  destruct (strip_prefix kw2 s) as [r2|] eqn:P2; [|discriminate].
  apply negb_true_iff in H1, H2.
  now apply (whole_word_unique kw1 kw2 s r1 r2).
Qed.

(** The keywords of [kws] that stand at the start of [s]. *)
Let standing (kws : list string) (prev : option ascii) (s : string) : nat :=
  list_sum (map (fun kw => if whole_word_at kw prev s then 1 else 0)%nat kws).

Lemma standing_none (kws : list string) (prev : option ascii) (s : string) :
  (forall kw, In kw kws -> whole_word_at kw prev s = false) ->
  standing kws prev s = O.
Proof.
  unfold standing. induction kws as [|kw kws IH]; intros H; simpl.
  - reflexivity.
  - rewrite (H kw (or_introl eq_refl)), IH; [reflexivity|].
    intros k Hk. apply H. now right.
Qed.

Lemma standing_at_most_one (kws : list string) (prev : option ascii)
    (s : string) :
  NoDup kws -> Forall (fun kw => kw <> "" /\ all_word kw = true) kws ->
  (standing kws prev s <= 1)%nat.
Proof.
  intros N F. induction N as [|kw kws Hnotin N IH].
  - unfold standing. simpl. lia.
  - inversion F as [|? ? [_ W] F']; subst.
    change (standing (kw :: kws) prev s)
      with ((if whole_word_at kw prev s then 1 else 0)
            + standing kws prev s)%nat.
    destruct (whole_word_at kw prev s) eqn:H.
    + rewrite standing_none; [lia|].
      intros k Hk. destruct (whole_word_at k prev s) eqn:Hk'; [|reflexivity].
      exfalso. apply Hnotin.
      rewrite Forall_forall in F'. destruct (F' k Hk) as [_ Wk].
      now rewrite (whole_word_at_unique kw k prev s W Wk H Hk').
    + specialize (IH F'). lia.
Qed.

Lemma occurrences_by_position (kws : list string) :
  forall prev a s,
    list_sum (map (fun kw => count_whole_word kw prev (String a s)) kws)
    = (standing kws prev (String a s)
       + list_sum (map (fun kw => count_whole_word kw (Some a) s) kws))%nat.
Proof.
  unfold standing. intros prev a s.
  induction kws as [|kw kws IH]; [reflexivity|].
  rewrite !map_cons, !list_sum_cons, IH.
  cbn [count_whole_word]. lia.
Qed.

Lemma occurrences_at_end (kws : list string) (prev : option ascii) :
  Forall (fun kw => kw <> "" /\ all_word kw = true) kws ->
  list_sum (map (fun kw => count_whole_word kw prev "") kws) = O.
Proof.
  induction 1 as [|kw kws [Hne _] _ IH]; [reflexivity|].
  rewrite map_cons, list_sum_cons, IH.
  destruct kw as [|k kw]; [now elim Hne|].
  cbn [count_whole_word]. unfold whole_word_at. simpl.
  now rewrite andb_false_r.
Qed.

Lemma occurrences_bounded (kws : list string) (s : string) :
  NoDup kws -> Forall (fun kw => kw <> "" /\ all_word kw = true) kws ->
  forall prev,
    (list_sum (map (fun kw => count_whole_word kw prev s) kws)
     <= String.length s)%nat.
Proof.
  intros N F. induction s as [|a s IH]; intros prev.
  - rewrite occurrences_at_end by exact F. simpl. lia.
  - rewrite occurrences_by_position.
    pose proof (standing_at_most_one kws prev (String a s) N F).
    specialize (IH (Some a)). simpl String.length. lia.
Qed.

Lemma keywords_distinct : NoDup keywords.
Proof.
  unfold keywords.
  repeat (constructor;
          [simpl; intros H;
           repeat (destruct H as [H|H]; [discriminate|]); exact H|]).
  constructor.
Qed.

(** X8: no position of the text counts for two keywords, so the score is
    at most one more than the length of the text; the empty text
    scores 1. *)
Theorem complexity_at_most_length (code language : string) :
  1 <= calculate_cyclomatic_complexity code language
       <= 1 + Z.of_nat (String.length code).
Proof.
  destruct (String.eqb (lower language) "python") eqn:E.
  - rewrite (python_complexity _ _ E).
    pose proof (occurrences_bounded keywords code keywords_distinct
                  keywords_are_words None) as H.
    unfold keyword_occurrences. lia.
  - unfold calculate_cyclomatic_complexity. rewrite E. lia.
Qed.

End OneKeywordPerPosition.

(** ** The language tag and texts without quotes *)

Section TagsAndQuotes.

Import PyStr Re PyFloat CodeQualityAnalyzer Sites Facts MoreSamples.

Lemma lower_char_idempotent (a : ascii) :
  lower_char (lower_char a) = lower_char a.
Proof.
  destruct a as [[] [] [] [] [] [] [] []]; vm_compute; reflexivity.
Qed.

Lemma lower_idempotent (s : string) : lower (lower s) = lower s.
Proof.
  unfold lower. induction s as [|a s IH]; simpl; [reflexivity|].
  now rewrite lower_char_idempotent, IH.
Qed.

(** X9: the analyzer reads the language tag in lower case only: a tag and
    its lower case give the same complexity and the same coverage. *)
Theorem language_tag_case (code language : string) :
  calculate_cyclomatic_complexity code (lower language)
  = calculate_cyclomatic_complexity code language
  /\ calculate_doc_coverage code (lower language)
     = calculate_doc_coverage code language.
Proof.
  unfold calculate_cyclomatic_complexity, calculate_doc_coverage.
  now rewrite lower_idempotent.
Qed.

Lemma no_docstring_without_quote (q : ascii) (s : string) :
  no_char q s = true -> docstring_at q s = None.
Proof.
  unfold docstring_at. destruct s as [|a s]; [reflexivity|].
  simpl. intros H. apply andb_true_iff in H as [H _].
  apply negb_true_iff in H. rewrite Ascii.eqb_sym in H. now rewrite H.
Qed.

Lemma no_span_without_quote (q : ascii) (s : string) :
  no_char q s = true ->
  forall n prev, count_from (fun _ => docstring_at q) n prev s = O.
Proof.
  induction s as [|a s IH]; intros H n prev.
  - destruct n; reflexivity.
  - pose proof (no_docstring_without_quote q _ H) as N.
    simpl in H. apply andb_true_iff in H as [_ H].
    destruct n as [|n]; cbn [count_from]; [rewrite N|]; now apply IH.
Qed.

(** X10: a python text with a definition and without any quote character
    has no docstring, and its coverage is 0.0. *)
Theorem no_quote_no_coverage (code language : string) :
  String.eqb (lower language) "python" = true ->
  total_definitions code <> O ->
  no_char dquote code = true ->
  no_char "'" code = true ->
  docstring_count code = O
  /\ calculate_doc_coverage code language = zero.
Proof.
  intros E D Q1 Q2.
  assert (C : docstring_count code = O).
  { unfold docstring_count.
    rewrite (findall_sites _ (fun _ => docstring_at dquote))
      by (intros; apply docstring_match).
    rewrite (findall_sites _ (fun _ => docstring_at "'"))
      by (intros; apply docstring_match).
    unfold count_sites. now rewrite !no_span_without_quote. }
  split; [exact C|].
  unfold calculate_doc_coverage. rewrite E.
  rewrite (proj2 (Nat.eqb_neq _ _) D), C.
  destruct (total_definitions code); [now elim D | reflexivity].
Qed.

Lemma no_quote_no_coverage_witness :
  docstring_count bare_code = O
  /\ calculate_doc_coverage bare_code "Python" = zero.
Proof.
  apply (no_quote_no_coverage bare_code "Python");
    [reflexivity | discriminate | reflexivity | reflexivity].
Defined.

End TagsAndQuotes.

(** ** The stored coverage *)

Section StoredCoverage.

Import PyStr PyFloat CodeQualityAnalyzer EnhancedCodeStorage Facts.

(** The mantissa left by the last shift of a rounding has 53 bits at
    most. *)
Lemma shr_fexp_mantissa (m e : Z) (l : location) :
  0 <= m -> shr_m (fst (shr_fexp prec emax m e l)) < 2 ^ 53.
Proof.
  intros H. destruct m as [|p|p]; try lia.
  - unfold shr_fexp, shr. cbn [Zdigits2].
    assert (S0 : shr_m (shr_record_of_loc 0 l) = 0)
      by (destruct l as [|[| |]]; reflexivity).
    destruct (fexp prec emax (0 + e) - e) as [|k|k]; cbn [fst];
      try (rewrite S0; lia).
    rewrite iter_shr_1_div by (rewrite S0; lia). rewrite S0.
    rewrite Z.div_0_l; [lia|]. apply Z.pow_nonzero; lia.
  - pose proof (digits2_bounds p) as [_ Hi].
    unfold shr_fexp, shr. cbn [Zdigits2].
    set (D := Z.pos (digits2_pos p)) in *.
    assert (F : D + e - 53 <= fexp prec emax (D + e))
      by (unfold fexp, prec; lia).
    assert (S0 : shr_m (shr_record_of_loc (Z.pos p) l) = Z.pos p)
      by (destruct l as [|[| |]]; reflexivity).
    destruct (fexp prec emax (D + e) - e) as [|k|k] eqn:K; cbn [fst].
    + rewrite S0. apply Z.lt_le_trans with (2 ^ D); [exact Hi|].
      apply Z.pow_le_mono_r; lia.
    + rewrite iter_shr_1_div by (rewrite S0; lia). rewrite S0.
      apply Z.div_lt_upper_bound; [lia|].
      rewrite <- Z.pow_add_r by lia.
      apply Z.lt_le_trans with (2 ^ D); [exact Hi|].
      apply Z.pow_le_mono_r; lia.
    + rewrite S0. apply Z.lt_le_trans with (2 ^ D); [exact Hi|].
      apply Z.pow_le_mono_r; lia.
Qed.

Lemma binary_round_aux_shape (m e : Z) (l : location) :
  0 <= m ->
  match binary_round_aux prec emax false m e l with
  | S754_zero s => s = false
  | S754_infinity s => s = false
  | S754_finite s p _ => s = false /\ Z.pos p < 2 ^ 53
  | S754_nan => False
  end.
Proof.
  intros H. unfold binary_round_aux.
  pose proof (shr_fexp_nonneg m e l H) as H1.
  destruct (shr_fexp prec emax m e l) as [mrs' e']. simpl fst in H1.
  pose proof (round_nearest_even_nonneg _ (loc_of_shr_record mrs') H1) as R.
  pose proof (shr_fexp_nonneg _ e' loc_Exact R) as H2.
  pose proof (shr_fexp_mantissa _ e' loc_Exact R) as H3.
  destruct (shr_fexp prec emax _ e' loc_Exact) as [mrs'' e''].
  simpl fst in H2, H3.
  destruct (shr_m mrs'') as [|p|p]; [reflexivity | | lia].
  destruct (e'' <=? emax - prec); [split; [reflexivity|exact H3]|reflexivity].
Qed.

Lemma truediv_shape (a b : nat) :
  b <> O ->
  match truediv (Z.of_nat a) (Z.of_nat b) with
  | S754_zero s => s = false
  | S754_infinity s => s = false
  | S754_finite s p _ => s = false /\ Z.pos p < 2 ^ 53
  | S754_nan => False
  end.
Proof.
  intros Hb. unfold truediv.
  destruct b as [|b]; [now elim Hb|].
  destruct a as [|a]; [reflexivity|].
  cbn [Z.of_nat operand SFdiv xorb].
  remember (Pos.of_succ_nat a) as p. remember (Pos.of_succ_nat b) as q.
  unfold SFdiv_core_binary.
  set (e' := Z.min _ _).
  set (m' := match 0 - 0 - e' with
             | 0 => Z.pos p
             | Z.pos _ => Z.shiftl (Z.pos p) (0 - 0 - e')
             | Z.neg _ => 0
             end).
  assert (Hm : 0 <= m').
  { unfold m'. destruct (0 - 0 - e'); try lia.
    apply Z.shiftl_nonneg. lia. }
  pose proof (Z.div_pos m' (Z.pos q) Hm ltac:(lia)) as Hq.
  unfold Z.div in Hq.
  destruct (Z.div_eucl m' (Z.pos q)) as [qq rr].
  now apply binary_round_aux_shape.
Qed.

(** A float below 1.0 with a mantissa of 53 bits at most is at most 100
    hundredths. *)
Lemma hundredths_below_one (p : positive) (e : Z) :
  Z.pos p < 2 ^ 53 ->
  ltb (S754_finite false p e) one = true ->
  0 <= hundredths p e <= 100.
Proof.
  intros Hp L.
  assert (B : e < 0 /\ Z.pos p < 2 ^ (- e)).
  { unfold ltb, SFltb in L.
    change one with (S754_finite false 4503599627370496 (-52)) in L.
    cbn [SFcompare] in L.
    destruct (Z.compare_spec e (-52)) as [E|E|E]; [| |discriminate].
    - subst e. split; [lia|].
      rewrite Pos.compare_cont_spec in L.
      destruct (Pos.compare p _) eqn:C; try discriminate.
      apply Pos.compare_lt_iff, Pos2Z.pos_lt_pos in C. exact C.
    - split; [lia|].
      apply Z.lt_le_trans with (2 ^ 53); [exact Hp|].
      apply Z.pow_le_mono_r; lia. }
  destruct B as [He Hlt].
  destruct e as [|k|k]; try lia.
  unfold hundredths, round_half_even.
  change (- Z.neg k) with (Z.pos k) in Hlt.
  set (d := 2 ^ Z.pos k) in *.
  assert (Hd : 0 < d) by (apply Z.pow_pos_nonneg; lia).
  assert (Q0 : 0 <= Z.pos p * 100 / d) by (apply Z.div_pos; lia).
  assert (Q1 : Z.pos p * 100 / d < 100)
    by (apply Z.div_lt_upper_bound; lia).
  destruct (2 * ((Z.pos p * 100) mod d) ?= d);
    [destruct (Z.even _)| |]; lia.
Qed.

Lemma two_decimals_within_unit (k : Z) :
  0 <= k <= 100 ->
  leb zero (literal k 100) = true /\ leb (literal k 100) one = true.
Proof.
  intros H.
  assert (A : forallb (fun i => leb zero (literal (Z.of_nat i) 100)
                                && leb (literal (Z.of_nat i) 100) one)
                (seq 0 101) = true) by (vm_compute; reflexivity).
  rewrite forallb_forall in A.
  specialize (A (Z.to_nat k)).
  rewrite Z2Nat.id in A by lia.
  apply andb_true_iff, A, in_seq. lia.
Qed.

Lemma round2_below_one (x : float) :
  match x with
  | S754_zero s => s = false
  | S754_infinity s => s = false
  | S754_finite s p _ => s = false /\ Z.pos p < 2 ^ 53
  | S754_nan => False
  end ->
  ltb x one = true ->
  exists k, 0 <= k <= 100 /\ round2 x = literal k 100.
Proof.
  destruct x as [s|s| |s p e]; intros S L.
  - subst s. exists 0. split; [lia|reflexivity].
  - subst s. discriminate.
  - contradiction.
  - destruct S as [-> Hp].
    pose proof (hundredths_below_one p e Hp L) as H.
    exists (hundredths p e). split; [exact H|].
    unfold round2. destruct (hundredths p e) as [|k|k]; try lia; reflexivity.
Qed.

(** X11: the coverage stored in a record is one of the 101 values 0.00,
    0.01, ..., 1.00, and so lies within [0.0, 1.0]. *)
Theorem stored_coverage_two_decimals
    (now name code explanation language : string)
    (tags : option (list string)) (complexity_level : option string)
    (dependencies : option (list string)) (user_rating : option float)
    (version : Z) (previous_version_id change_log : option string) :
  exists r k,
    result (store_code_pattern now name code explanation language tags
              complexity_level dependencies user_rating version
              previous_version_id change_log)
    = Returns r
    /\ 0 <= k <= 100
    /\ documentation_coverage (metrics r) = literal k 100
    /\ leb zero (documentation_coverage (metrics r)) = true
    /\ leb (documentation_coverage (metrics r)) one = true.
Proof.
  assert (K : exists k, 0 <= k <= 100
                /\ round2 (calculate_doc_coverage code language)
                   = literal k 100).
  { unfold calculate_doc_coverage.
    destruct (String.eqb (lower language) "python");
      [|exists 50; split; [lia|reflexivity]].
    destruct (Nat.eqb (total_definitions code) 0) eqn:D;
      [exists 100; split; [lia|reflexivity]|].
    apply Nat.eqb_neq in D. unfold PyFloat.min.
    destruct (ltb _ one) eqn:L;
      [|exists 100; split; [lia|reflexivity]].
    apply round2_below_one; [|exact L].
    now apply truediv_shape. }
  destruct K as (k & Hk & E).
  eexists. exists k. split; [reflexivity|]. split; [exact Hk|].
  cbn [metrics documentation_coverage]. rewrite E.
  split; [reflexivity|]. now apply two_decimals_within_unit.
Qed.

End StoredCoverage.

(** ** The clauses of the filter, constraint by constraint *)

Section FilterClauses.

Import PyStr PyFloat EnhancedCodeStorage Spec Samples.

(** The clause of the rating as the source builds it. *)
Lemma append_rating_part (x : option float) (filters : list fstring) :
  exists part,
    append_if truthy rating_clause x filters = (filters ++ part)%list
    /\ (x = None -> part = [])
    /\ (forall rating,
          x = Some rating -> truthy rating = true ->
          part = [rating_clause rating])
    /\ (forall rating,
          x = Some rating -> part = [] \/ part = [rating_clause rating]).
Proof.
  destruct x as [rating|]; simpl.
  - destruct (truthy rating) eqn:T.
    + exists [rating_clause rating]. split; [reflexivity|].
      split; [discriminate|]. split.
      * intros r H _. now inversion H.
      * intros r H. right. now inversion H.
    + exists []. split; [now rewrite app_nil_r|].
      split; [reflexivity|]. split.
      * intros r H Hr. inversion H. subst r. congruence.
      * intros r H. now left.
  - exists []. split; [now rewrite app_nil_r|].
    split; [reflexivity|]. split; intros r H; discriminate.
Qed.

(** C3, as the specification has it, fails: a query with an empty language,
    an empty complexity level and an empty list of required tags supplies
    three constraints, and the filter has no clause. *)
Lemma supplied_constraints_without_clause :
  build_filters (Some "") (Some "") None (Some []) = []
  /\ clauses_per_supplied (Some "") (Some "") None (Some [])
     = [language_clause ""; complexity_clause ""; tags_clause []]
  /\ build_filters (Some "") (Some "") None (Some [])
     <> clauses_per_supplied (Some "") (Some "") None (Some []).
Proof.
  split; [reflexivity|]. split; [reflexivity|]. discriminate.
Qed.

(** C3, amended: for every query the filter is the AND-conjunction, in the
    order language, complexity level, rating, tags, of one clause per
    constraint that is supplied and not empty; a language, level or tag
    list that is absent or empty has no clause, whatever the rating.  The
    clause of the rating is present for a supplied rating other than zero
    and absent without a rating; for the rating 0.0 the statement leaves
    open whether its clause is there. *)
Theorem one_clause_per_nonempty_constraint
    (language complexity_level : option string) (min_rating : option float)
    (required_tags : option (list string)) :
  exists rating_part : list fstring,
    build_filters language complexity_level min_rating required_tags
    = (clause_if_supplied language_clause (nonempty_str language)
       ++ clause_if_supplied complexity_clause
            (nonempty_str complexity_level)
       ++ rating_part
       ++ clause_if_supplied tags_clause (nonempty_list required_tags))%list
    /\ filter_str language complexity_level min_rating required_tags
       = fjoin " AND "
           (clause_if_supplied language_clause (nonempty_str language)
            ++ clause_if_supplied complexity_clause
                 (nonempty_str complexity_level)
            ++ rating_part
            ++ clause_if_supplied tags_clause
                 (nonempty_list required_tags))%list
    /\ (min_rating = None -> rating_part = [])
    /\ (forall rating,
          min_rating = Some rating -> truthy rating = true ->
          rating_part = [rating_clause rating])
    /\ (forall rating,
          min_rating = Some rating ->
          rating_part = [] \/ rating_part = [rating_clause rating]).
Proof.
  unfold filter_str, build_filters.
  rewrite append_tags_clause.
  destruct (append_rating_part min_rating
              (append_if str_truthy complexity_clause complexity_level
                 (append_if str_truthy language_clause language [])))
    as (part & E & H0 & H1 & H2).
  rewrite E, !append_str_clause. cbn [app].
  exists part.
  rewrite <- !app_assoc.
  repeat split; assumption.
Qed.

Lemma one_clause_per_nonempty_constraint_witness :
  build_filters (Some "python") None (Some (literal 4 1))
    (Some ["algorithm"])
  = [language_clause "python"; rating_clause (literal 4 1);
     tags_clause ["algorithm"]]
  /\ filter_str (Some "python") None (Some (literal 4 1))
       (Some ["algorithm"])
     = [Text "language='python'"; Text " AND "; Text "user_rating>=";
        FloatField (literal 4 1); Text " AND "; Text "tags include ";
        ListField ["algorithm"]]
  /\ build_filters None (Some "simple") None None
     = [complexity_clause "simple"]
  /\ (exists rating_part,
        build_filters (Some "python") (Some "") (Some zero)
          (Some ["algorithm"])
        = (language_clause "python" :: rating_part
           ++ [tags_clause ["algorithm"]])%list).
Proof.
  destruct (one_clause_per_nonempty_constraint (Some "python") None
              (Some (literal 4 1)) (Some ["algorithm"]))
    as (p1 & E1 & F1 & _ & H1 & _).
  rewrite (H1 _ eq_refl eq_refl) in E1, F1.
  destruct (one_clause_per_nonempty_constraint None (Some "simple") None
              None)
    as (p2 & E2 & _ & H2 & _).
  rewrite (H2 eq_refl) in E2.
  destruct (one_clause_per_nonempty_constraint (Some "python") (Some "")
              (Some zero) (Some ["algorithm"]))
    as (p3 & E3 & _).
  split; [exact E1|]. split; [exact F1|]. split; [exact E2|].
  exists p3. exact E3.
Defined.

End FilterClauses.

(** ** The text of an id *)

Section IdTexts.

Import PyStr PyFloat EnhancedCodeStorage Spec Facts IdText Samples.

Lemma get_map_chars (f : ascii -> ascii) (s : string) :
  forall i, String.get i (map_chars f s) = option_map f (String.get i s).
Proof.
  induction s as [|a s IH]; intros i; [reflexivity|].
  destruct i as [|i]; simpl; [reflexivity | apply IH].
Qed.

Lemma get_append_left (s t : string) :
  forall i a, String.get i s = Some a -> String.get i (s ++ t) = Some a.
Proof.
  induction s as [|b s IH]; intros i a H; [discriminate|].
  destruct i as [|i]; simpl in *; [exact H | now apply IH].
Qed.

Lemma get_all_ascii (s : string) :
  forall i a,
    all_ascii s = true -> String.get i s = Some a -> is_ascii a = true.
Proof.
  induction s as [|b s IH]; intros i a W H; [discriminate|].
  simpl in W. apply andb_true_iff in W as [Wb W].
  destruct i as [|i]; simpl in H.
  - now inversion H; subst.
  - now apply (IH i).
Qed.

Lemma slug_char_of_ascii (a : ascii) :
  is_ascii a = true ->
  (if Ascii.eqb (lower_char a) " " then "_"%char else lower_char a)
  = ascii_slug_char a.
Proof.
  destruct a as [[] [] [] [] [] [] [] []]; vm_compute;
    congruence || reflexivity.
Qed.

Lemma slug_char_no_capital (a : ascii) :
  in_range 65 90
    (if Ascii.eqb (lower_char a) " " then "_"%char else lower_char a)
  = false.
Proof.
  destruct a as [[] [] [] [] [] [] [] []]; vm_compute; reflexivity.
Qed.

Lemma slug_no_capital (name : string) : no_capital (slug name) = true.
Proof.
  unfold slug, replace, lower. rewrite map_chars_map_chars.
  induction name as [|a s IH]; simpl; [reflexivity|].
  now rewrite slug_char_no_capital, IH.
Qed.

Lemma uint_text_plain (d : Decimal.uint) :
  no_capital (NilEmpty.string_of_uint d) = true
  /\ no_space (NilEmpty.string_of_uint d) = true.
Proof. induction d; simpl; auto. Qed.

Lemma of_int_plain (v : Z) :
  no_capital (of_int v) = true /\ no_space (of_int v) = true.
Proof.
  unfold of_int. destruct (Z.to_int v); simpl; apply uint_text_plain.
Qed.

Lemma no_capital_app (s t : string) :
  no_capital (s ++ t) = no_capital s && no_capital t.
Proof.
  induction s as [|a s IH]; simpl; [reflexivity|].
  now rewrite IH, andb_assoc.
Qed.

Lemma no_space_app (s t : string) :
  no_space (s ++ t) = no_space s && no_space t.
Proof.
  induction s as [|a s IH]; simpl; [reflexivity|].
  now rewrite IH, andb_assoc.
Qed.

Lemma version_of_text_of_int (v : Z) : version_of_text (of_int v) = Some v.
Proof.
  unfold version_of_text, of_int.
  rewrite NilEmpty.isi. simpl. now rewrite DecimalZ.of_to.
Qed.

(** C7: the id of the record is the name in lower case with every space
    turned into an underscore, then an underscore and the version number in
    decimal.  No space and no capital letter is left in it, each ASCII
    character of the name shows at its place as said, and the text after
    the last underscore reads back as the version.  The id is fixed by the
    name and the version alone: two calls that agree on them give the same
    id, whatever the clock and the other arguments. *)
Theorem id_from_name_and_version
    (now name code explanation language : string)
    (tags : option (list string)) (complexity_level : option string)
    (dependencies : option (list string)) (user_rating : option float)
    (version : Z) (previous_version_id change_log : option string) :
  (exists r,
     result (store_code_pattern now name code explanation language tags
               complexity_level dependencies user_rating version
               previous_version_id change_log)
     = Returns r
     /\ id r = replace " " "_" (lower name) ++ "_" ++ of_int version
     /\ no_space (id r) = true
     /\ no_capital (id r) = true
     /\ (all_ascii name = true ->
         forall i a,
           String.get i name = Some a ->
           String.get i (id r) = Some (ascii_slug_char a))
     /\ (exists digits,
           id r = replace " " "_" (lower name) ++ "_" ++ digits
           /\ no_char "_" digits = true
           /\ version_of_text digits = Some version)
     /\ (forall now' code' explanation' language' tags' complexity_level'
                dependencies' user_rating' previous_version_id' change_log',
           exists r',
             result (store_code_pattern now' name code' explanation'
                       language' tags' complexity_level' dependencies'
                       user_rating' version previous_version_id'
                       change_log')
             = Returns r'
             /\ id r' = id r))
  /\ (exists r,
        result (store_code_pattern now "Binary search implementation" code
                  explanation language tags complexity_level dependencies
                  user_rating 1 previous_version_id change_log)
        = Returns r
        /\ id r = "binary_search_implementation_1")
  /\ (exists r,
        result (store_code_pattern now "Quick  Sort API v2" code
                  explanation language tags complexity_level dependencies
                  user_rating 10 previous_version_id change_log)
        = Returns r
        /\ id r = "quick__sort_api_v2_10")
  /\ (exists r,
        result (store_code_pattern now "LRU_Cache" code explanation
                  language tags complexity_level dependencies user_rating
                  (-2) previous_version_id change_log)
        = Returns r
        /\ id r = "lru_cache_-2").
Proof.
  split; [|repeat split; eexists; split; reflexivity].
  eexists. split; [reflexivity|].
  cbn [id]. unfold assign_id. fold (slug name).
  destruct (of_int_plain version) as [Vc Vs].
  split; [reflexivity|]. split; [|split; [|split; [|split]]].
  - rewrite !no_space_app. simpl.
    unfold slug. now rewrite replace_no_space, Vs.
  - rewrite !no_capital_app. simpl.
    now rewrite slug_no_capital, Vc.
  - intros A i a H. apply get_append_left.
    unfold slug, replace, lower. rewrite map_chars_map_chars.
    rewrite get_map_chars, H. simpl. f_equal.
    apply slug_char_of_ascii. now apply (get_all_ascii name i).
  - exists (of_int version). split; [reflexivity|].
    split; [apply of_int_no_underscore | apply version_of_text_of_int].
  - intros. eexists. split; reflexivity.
Qed.

Lemma id_from_name_and_version_witness :
  exists r,
    result (store_code_pattern clock "Ab C" "x = 1" "demo" "python" None
              None None None 7 None None)
    = Returns r
    /\ String.get 0 (id r) = Some "a"%char
    /\ String.get 1 (id r) = Some "b"%char
    /\ String.get 2 (id r) = Some "_"%char
    /\ String.get 3 (id r) = Some "c"%char.
Proof.
  destruct (id_from_name_and_version clock "Ab C" "x = 1" "demo" "python"
              None None None None 7 None None)
    as [(r & Hr & _ & _ & _ & Hc & _) _].
  exists r. split; [exact Hr|].
  split; [exact (Hc eq_refl 0%nat "A"%char eq_refl)|].
  split; [exact (Hc eq_refl 1%nat "b"%char eq_refl)|].
  split; [exact (Hc eq_refl 2%nat " "%char eq_refl)|].
  exact (Hc eq_refl 3%nat "C"%char eq_refl).
Defined.

End IdTexts.

(** ** Quotients below one *)

Section QuotientBelowOne.

Import PyFloat.

(** A mantissa and exponent whose value is at most 1, and below 1 when the
    mantissa stays below the power of two. *)
Lemma shr_fexp_at_most_one (m e : Z) (l : location) :
  0 <= m -> e <= -52 -> m <= 2 ^ (- e) ->
  0 <= shr_m (fst (shr_fexp prec emax m e l))
  /\ snd (shr_fexp prec emax m e l) <= -52
  /\ shr_m (fst (shr_fexp prec emax m e l))
     <= 2 ^ (- snd (shr_fexp prec emax m e l))
  /\ (m < 2 ^ (- e) ->
      shr_m (fst (shr_fexp prec emax m e l))
      < 2 ^ (- snd (shr_fexp prec emax m e l))).
Proof.
  intros H0 He Hm.
  split; [now apply shr_fexp_nonneg|].
  assert (F : fexp prec emax (Zdigits2 m + e) <= -52).
  { unfold fexp, SpecFloat.emin, prec, emax.
    destruct m as [|p|p]; cbn [Zdigits2]; try lia.
    pose proof (digits2_bounds p) as [Lo _].
    assert (2 ^ (Z.pos (digits2_pos p) - 1) <= 2 ^ (- e)) by lia.
    apply Z.pow_le_mono_r_iff in H; lia. }
  assert (S0 : shr_m (shr_record_of_loc m l) = m)
    by (destruct l as [|[| |]]; reflexivity).
  unfold shr_fexp, shr.
  destruct (fexp prec emax (Zdigits2 m + e) - e) as [|k|k] eqn:K;
    cbn [fst snd]; rewrite ?S0; try (repeat split; tauto || lia).
  rewrite iter_shr_1_div by (rewrite S0; lia). rewrite S0.
  assert (P : 2 ^ (- e) = 2 ^ Z.pos k * 2 ^ (- (e + Z.pos k))).
  { rewrite <- Z.pow_add_r by lia. f_equal. lia. }
  split; [lia|]. split.
  - apply Z.div_le_upper_bound; [lia|]. now rewrite <- P.
  - intros Hs. apply Z.div_lt_upper_bound; [lia|]. now rewrite <- P.
Qed.

Lemma binary_round_aux_at_most_one (m e : Z) (l : location) :
  0 <= m -> e <= -52 -> m < 2 ^ (- e) ->
  ltb (binary_round_aux prec emax false m e l) one = true
  \/ binary_round_aux prec emax false m e l
     = S754_finite false 4503599627370496 (-52).
Proof.
  intros H0 He Hm. unfold binary_round_aux.
  destruct (shr_fexp_at_most_one m e l H0 He ltac:(lia))
    as (A0 & A1 & _ & A3).
  specialize (A3 Hm).
  destruct (shr_fexp prec emax m e l) as [mrs' e']. cbn [fst snd] in *.
  set (m' := round_nearest_even (shr_m mrs') (loc_of_shr_record mrs')).
  assert (R0 : 0 <= m') by now apply round_nearest_even_nonneg.
  assert (R1 : m' <= 2 ^ (- e')).
  { unfold m'. destruct (loc_of_shr_record mrs') as [|[| |]]; simpl;
      try lia. destruct (Z.even (shr_m mrs')); lia. }
  destruct (shr_fexp_at_most_one m' e' loc_Exact R0 A1 R1)
    as (B0 & B1 & B2 & _).
  destruct (shr_fexp prec emax m' e' loc_Exact) as [mrs'' e''].
  cbn [fst snd] in *.
  destruct (shr_m mrs'') as [|p|p]; [now left | | lia].
  assert (L : (e'' <=? emax - prec) = true)
    by (apply Z.leb_le; unfold emax, prec; lia).
  rewrite L.
  unfold ltb, SFltb.
  change one with (S754_finite false 4503599627370496 (-52)).
  cbn [SFcompare].
  destruct (Z.compare_spec e'' (-52)) as [E|E|E]; [|now left|lia].
  subst e''. rewrite Pos.compare_cont_spec.
  destruct (Pos.compare p _) eqn:C.
  - right. apply Pos.compare_eq in C. now subst p.
  - now left.
  - exfalso. apply Pos.compare_gt_iff, Pos2Z.pos_lt_pos in C.
    apply (Z.lt_irrefl (Z.pos p)).
    eapply Z.le_lt_trans; [exact B2 | exact C].
Qed.

(** A count divided by a larger count is below 1.0, or 1.0 itself when the
    quotient is too near to it to tell. *)
Lemma truediv_at_most_one (a b : nat) :
  (a < b)%nat ->
  ltb (truediv (Z.of_nat a) (Z.of_nat b)) one = true
  \/ truediv (Z.of_nat a) (Z.of_nat b)
     = S754_finite false 4503599627370496 (-52).
Proof.
  intros Hab. unfold truediv.
  destruct b as [|b]; [lia|].
  destruct a as [|a]; [now left|].
  cbn [Z.of_nat operand SFdiv xorb].
  assert (Hpq : Z.pos (Pos.of_succ_nat a) < Z.pos (Pos.of_succ_nat b))
    by lia.
  set (p := Pos.of_succ_nat a) in *. set (q := Pos.of_succ_nat b) in *.
  unfold SFdiv_core_binary. cbn [Zdigits2].
  pose proof (digits2_bounds p) as [Lp _].
  pose proof (digits2_bounds q) as [_ Hq].
  assert (HD : Z.pos (digits2_pos p) <= Z.pos (digits2_pos q)).
  { assert (2 ^ (Z.pos (digits2_pos p) - 1) < 2 ^ Z.pos (digits2_pos q))
      by lia.
    apply Z.pow_lt_mono_r_iff in H; lia. }
  set (e' := Z.min _ _).
  assert (He : e' <= -53)
    by (unfold e', fexp, SpecFloat.emin, prec, emax; lia).
  set (m' := match 0 - 0 - e' with
             | 0 => Z.pos p
             | Z.pos _ => Z.shiftl (Z.pos p) (0 - 0 - e')
             | Z.neg _ => 0
             end).
  assert (Hm : m' = Z.pos p * 2 ^ (- e')).
  { unfold m'. replace (0 - 0 - e') with (- e') by lia.
    destruct (- e') as [|k|k] eqn:K; try lia.
    apply Z.shiftl_mul_pow2. lia. }
  pose proof (Z.pow_pos_nonneg 2 (- e') ltac:(lia) ltac:(lia)) as Hpos.
  assert (Q0 : 0 <= m' / Z.pos q) by (apply Z.div_pos; nia).
  assert (Q1 : m' / Z.pos q < 2 ^ (- e')).
  { apply Z.div_lt_upper_bound; [lia|]. rewrite Hm.
    apply Z.mul_lt_mono_pos_r; assumption. }
  unfold Z.div in Q0, Q1.
  destruct (Z.div_eucl m' (Z.pos q)) as [qq rr].
  apply binary_round_aux_at_most_one; lia.
Qed.

End QuotientBelowOne.

(** ** The value of the coverage *)

Section CoverageValue.

Import PyStr Re PyFloat CodeQualityAnalyzer Sites Binary64 Texts.

Lemma coverage_of_quotient (code language : string) :
  String.eqb (lower language) "python" = true ->
  (docstring_count code < total_definitions code)%nat ->
  calculate_doc_coverage code language
  = truediv (Z.of_nat (docstring_count code))
            (Z.of_nat (total_definitions code)).
Proof.
  intros E H. unfold calculate_doc_coverage. rewrite E.
  assert (D : Nat.eqb (total_definitions code) 0 = false)
    by (apply Nat.eqb_neq; lia).
  rewrite D. unfold PyFloat.min.
  destruct (truediv_at_most_one _ _ H) as [L|T].
  - now rewrite L.
  - rewrite T. reflexivity.
Qed.

(** C6: for the "python" tag the coverage is 1.0 when the text has no
    definition site and otherwise min(1.0, docstrings / definitions): 0.0
    without a docstring, the quotient itself while the docstrings are
    fewer than the definitions, which is at most 1.0, and 1.0 from as many
    docstrings as definitions on; for every other tag it is 0.5.  The
    docstrings are the triple-quoted spans of either quote style and the
    definitions the [def] and [class] declarations, each kind found from
    left to right in the text.  One docstring over three definitions gives
    1/3, one over ten 0.1, two over three 2/3 and three over eight 0.375,
    each as Python computes it. *)
Theorem doc_coverage_ratio (code language : string) :
  (String.eqb (lower language) "python" = false ->
   calculate_doc_coverage code language = b_half)
  /\ (String.eqb (lower language) "python" = true ->
      total_definitions code = O ->
      calculate_doc_coverage code language = b_one)
  /\ (String.eqb (lower language) "python" = true ->
      total_definitions code <> O ->
      docstring_count code = O ->
      calculate_doc_coverage code language = b_zero)
  /\ (String.eqb (lower language) "python" = true ->
      (docstring_count code < total_definitions code)%nat ->
      calculate_doc_coverage code language
      = truediv (Z.of_nat (docstring_count code))
                (Z.of_nat (total_definitions code))
      /\ leb b_zero (calculate_doc_coverage code language) = true
      /\ leb (calculate_doc_coverage code language) b_one = true)
  /\ (String.eqb (lower language) "python" = true ->
      total_definitions code <> O ->
      (total_definitions code <= docstring_count code)%nat ->
      calculate_doc_coverage code language = b_one)
  /\ docstring_count code
     = (count_sites (fun _ => docstring_at dquote) code
        + count_sites (fun _ => docstring_at "'") code)%nat
  /\ total_definitions code
     = (count_sites (declaration_at "def" is_paren) code
        + count_sites (declaration_at "class" is_colon_or_paren) code)%nat
  /\ calculate_doc_coverage (text_with 1 3) "python" = b_third
  /\ calculate_doc_coverage (text_with 1 10) "python" = b_tenth
  /\ calculate_doc_coverage (text_with 2 3) "Python" = b_two_thirds
  /\ calculate_doc_coverage (text_with 3 8) "PYTHON" = b_three_eighths
  /\ calculate_doc_coverage (text_with 1 2) "python" = b_half
  /\ calculate_doc_coverage (text_with 0 4) "python" = b_zero
  /\ calculate_doc_coverage (text_with 4 4) "python" = b_one
  /\ calculate_doc_coverage (text_with 5 2) "python" = b_one
  /\ calculate_doc_coverage (text_with 3 0) "python" = b_one
  /\ calculate_doc_coverage mixed_text "python" = b_third
  /\ calculate_doc_coverage (text_with 1 3) "java" = b_half.
Proof.
  split; [|split; [|split; [|split; [|split; [|split; [|split]]]]]].
  - intros E. unfold calculate_doc_coverage. now rewrite E.
  - intros E D. unfold calculate_doc_coverage. now rewrite E, D.
  - intros E D H. unfold calculate_doc_coverage.
    rewrite E, (proj2 (Nat.eqb_neq _ _) D), H.
    destruct (total_definitions code); [now elim D | reflexivity].
  - intros E H. split; [now apply coverage_of_quotient|].
    apply coverage_bounds.
  - intros E D H. unfold calculate_doc_coverage.
    rewrite E, (proj2 (Nat.eqb_neq _ _) D).
    unfold PyFloat.min. now rewrite (truediv_not_below_one _ _ D H).
  - unfold docstring_count. f_equal; apply findall_sites;
      intros prev t; apply docstring_match.
  - unfold total_definitions, func_count, class_count.
    f_equal; apply findall_sites; intros prev t.
    + apply func_def_match.
    + apply class_def_match.
  - repeat split; vm_compute; reflexivity.
Qed.

Lemma doc_coverage_ratio_witness :
  calculate_doc_coverage "x = 1" "Rust" = b_half
  /\ calculate_doc_coverage "x = 1" "Python" = b_one
  /\ calculate_doc_coverage (text_with 0 2) "python" = b_zero
  /\ calculate_doc_coverage (text_with 3 7) "python" = truediv 3 7
  /\ calculate_doc_coverage (text_with 3 2) "python" = b_one.
Proof.
  split; [|split; [|split; [|split]]].
  - apply (proj1 (doc_coverage_ratio "x = 1" "Rust")). reflexivity.
  - apply (proj1 (proj2 (doc_coverage_ratio "x = 1" "Python")));
      reflexivity.
  - apply (proj1 (proj2 (proj2
             (doc_coverage_ratio (text_with 0 2) "python"))));
      [reflexivity | discriminate | reflexivity].
  - apply (proj1 (proj2 (proj2 (proj2
             (doc_coverage_ratio (text_with 3 7) "python")))));
      [reflexivity | vm_compute; lia].
  - apply (proj1 (proj2 (proj2 (proj2 (proj2
             (doc_coverage_ratio (text_with 3 2) "python"))))));
      [reflexivity | discriminate | vm_compute; lia].
Defined.

End CoverageValue.

(** ** Rounding to two decimals *)

Section TwoDecimals.

Import PyStr PyFloat CodeQualityAnalyzer EnhancedCodeStorage Binary64 Texts.

(** [round_half_even n d] is an integer nearest to [n / d], and the even
    one of two that are as near. *)
Lemma round_half_even_nearest (n d : Z) :
  0 < d ->
  2 * Z.abs (n - round_half_even n d * d) <= d
  /\ (2 * Z.abs (n - round_half_even n d * d) = d ->
      Z.even (round_half_even n d) = true).
Proof.
  intros Hd. unfold round_half_even.
  pose proof (Z.div_mod n d ltac:(lia)) as E.
  pose proof (Z.mod_pos_bound n d Hd) as B.
  set (q := n / d) in *. set (r := n mod d) in *.
  destruct (Z.compare_spec (2 * r) d) as [C|C|C].
  - destruct (Z.even q) eqn:Q.
    + split; [lia|]. intros _. exact Q.
    + split; [lia|]. intros _.
      rewrite Z.even_add, Q. reflexivity.
  - split; lia.
  - split; lia.
Qed.

Lemma below_one_exponent (p : positive) (e : Z) :
  Z.pos p < 2 ^ 53 ->
  ltb (S754_finite false p e) one = true ->
  e < 0.
Proof.
  intros Hp L. unfold ltb, SFltb in L.
  change one with (S754_finite false 4503599627370496 (-52)) in L.
  cbn [SFcompare] in L.
  destruct (Z.compare_spec e (-52)) as [E|E|E]; [lia|lia|discriminate].
Qed.

Lemma round2_nearest (x : float) :
  match x with
  | S754_zero s => s = false
  | S754_infinity s => s = false
  | S754_finite s p _ => s = false /\ Z.pos p < 2 ^ 53
  | S754_nan => False
  end ->
  ltb x one = true \/ x = b_one ->
  exists k,
    0 <= k <= 100 /\ nearest_hundredth x k /\ round2 x = literal k 100.
Proof.
  intros S [L|E].
  - destruct x as [s|s| |s p e]; try contradiction.
    + subst s. exists 0. repeat split; lia.
    + subst s. discriminate.
    + destruct S as [-> Hp].
      pose proof (below_one_exponent p e Hp L) as He.
      pose proof (hundredths_below_one p e Hp L) as Hk.
      exists (hundredths p e). split; [exact Hk|]. split.
      * destruct e as [|k|k]; try lia.
        unfold nearest_hundredth, hundredths.
        change (Z.neg k <? 0) with true. cbv iota.
        change (- Z.neg k) with (Z.pos k).
        apply round_half_even_nearest.
        apply Z.pow_pos_nonneg; lia.
      * unfold round2.
        destruct (hundredths p e) as [|k|k]; try lia; reflexivity.
  - subst x. exists 100. split; [lia|]. split; [|reflexivity].
    unfold nearest_hundredth, b_one.
    change (-52 <? 0) with true. cbv iota.
    change (- -52) with 52.
    replace (Z.pos 4503599627370496 * 100 - 100 * 2 ^ 52) with 0
      by reflexivity.
    change (2 * Z.abs 0) with 0.
    split; [apply Z.pow_nonneg; lia|].
    intros H. vm_compute in H. discriminate H.
Qed.

Lemma coverage_shape (code language : string) :
  match calculate_doc_coverage code language with
  | S754_zero s => s = false
  | S754_infinity s => s = false
  | S754_finite s p _ => s = false /\ Z.pos p < 2 ^ 53
  | S754_nan => False
  end
  /\ (ltb (calculate_doc_coverage code language) one = true
      \/ calculate_doc_coverage code language = b_one).
Proof.
  unfold calculate_doc_coverage.
  destruct (String.eqb (lower language) "python");
    [|split; [split; reflexivity | now left]].
  destruct (Nat.eqb (total_definitions code) 0) eqn:D;
    [split; [split; reflexivity | now right]|].
  apply Nat.eqb_neq in D. unfold PyFloat.min.
  destruct (ltb _ one) eqn:L.
  - split; [now apply truediv_shape | now left].
  - split; [split; reflexivity | now right].
Qed.

(** C9: the coverage stored in the record is the coverage of the analyzer
    rounded to two decimals: a whole number of hundredths, the nearest to
    the exact coverage and the even one of two that are as near.  The
    stored complexity is the score of the analyzer as it is.  The stored
    coverage can differ from the exact one: 2/3 is stored as 0.67, 3/8 as
    0.38, 1/8 as 0.12 and 1/3 as 0.33. *)
Theorem stored_coverage_rounded
    (now name code explanation language : string)
    (tags : option (list string)) (complexity_level : option string)
    (dependencies : option (list string)) (user_rating : option float)
    (version : Z) (previous_version_id change_log : option string) :
  (exists r k,
     result (store_code_pattern now name code explanation language tags
               complexity_level dependencies user_rating version
               previous_version_id change_log)
     = Returns r
     /\ cyclomatic_complexity (metrics r)
        = calculate_cyclomatic_complexity code language
     /\ documentation_coverage (metrics r)
        = round2 (calculate_doc_coverage code language)
     /\ 0 <= k <= 100
     /\ nearest_hundredth (calculate_doc_coverage code language) k
     /\ documentation_coverage (metrics r) = literal k 100)
  /\ (exists r,
        result (store_code_pattern now name (text_with 2 3) explanation
                  "python" tags complexity_level dependencies user_rating
                  version previous_version_id change_log)
        = Returns r
        /\ calculate_doc_coverage (text_with 2 3) "python" = b_two_thirds
        /\ documentation_coverage (metrics r) = b_0_67)
  /\ (exists r,
        result (store_code_pattern now name (text_with 3 8) explanation
                  "python" tags complexity_level dependencies user_rating
                  version previous_version_id change_log)
        = Returns r
        /\ calculate_doc_coverage (text_with 3 8) "python"
           = b_three_eighths
        /\ documentation_coverage (metrics r) = b_0_38)
  /\ (exists r,
        result (store_code_pattern now name (text_with 1 8) explanation
                  "python" tags complexity_level dependencies user_rating
                  version previous_version_id change_log)
        = Returns r
        /\ calculate_doc_coverage (text_with 1 8) "python" = b_eighth
        /\ documentation_coverage (metrics r) = b_0_12)
  /\ (exists r,
        result (store_code_pattern now name (text_with 1 3) explanation
                  "python" tags complexity_level dependencies user_rating
                  version previous_version_id change_log)
        = Returns r
        /\ calculate_doc_coverage (text_with 1 3) "python" = b_third
        /\ documentation_coverage (metrics r) = b_0_33
        /\ documentation_coverage (metrics r)
           <> calculate_doc_coverage (text_with 1 3) "python")
  /\ (exists r,
        result (store_code_pattern now name (text_with 1 2) explanation
                  "python" tags complexity_level dependencies user_rating
                  version previous_version_id change_log)
        = Returns r
        /\ documentation_coverage (metrics r) = b_half).
Proof.
  split.
  - destruct (coverage_shape code language) as [S B].
    destruct (round2_nearest _ S B) as (k & Hk & N & E).
    eexists. exists k. split; [reflexivity|].
    cbn [metrics cyclomatic_complexity documentation_coverage].
    repeat split; try assumption; apply Hk.
  - repeat split; eexists; (split; [reflexivity|]);
      cbn [metrics documentation_coverage];
      repeat split; try (vm_compute; reflexivity).
    vm_compute. discriminate.
Qed.

End TwoDecimals.
